(** * aliceVision/imageIO/image.cpp: the pixel-buffer bridge over OpenImageIO

    A shallow embedding of [src/aliceVision/imageIO/image.cpp].  The file is a
    thin layer over OpenImageIO (namespace [oiio]); the part of that library
    the bridge calls is modelled in [Module oiio], the bridge itself in
    [Module imageIO].

    Conventions.
    - A C++ [int] is a [Z]; [/] on [int] truncates: [Z.quot].  Signed
      overflow and division by zero are undefined behaviour in C++ and are
      given no meaning here: where the source multiplies [int]s into an
      element count, the statements about that count assume that the
      product is a count ([std.is_count], [imageIO.count_ok]); where it
      divides, they assume that the divisor is not zero.
    - A [std::string] is a [string]; [size_t] positions are [nat].
    - A [std::vector<T>] is the flat list of the scalar components it holds
      in memory, [components T] of them per element; this is the view
      [buffer.data()] hands to OpenImageIO.
    - A pixel component is a value of an abstract type [sample]; the
      numerical work OpenImageIO does on components (format conversion,
      weighted sums, resampling, convolution) is a parameter of the model. *)

From Stdlib Require Import ZArith List String Ascii Bool Lia QArith Qcanon.
From stdpp Require Import base strings gmap.

Set Default Proof Using "Type".
Local Open Scope nat_scope.

(** ** Strings as [std::string] *)

Module std.

(** [s.compare(pos, len, t)]: the three-way comparison of the substring of
    [s] that starts at [pos] and has (at most) [len] characters with [t]. *)
Definition string_compare (s : string) (pos len : nat) (t : string) : comparison :=
  String.compare (String.substring pos len s) t.

(** [c == 0] for the [int] a three-way comparison returns. *)
Definition is_zero (c : comparison) : bool :=
  match c with Eq => true | _ => false end.

(** [INT_MAX], and the values an [int] expression may take when it is used
    as an element count: not negative, and in the range of [int]. *)
Definition INT_MAX : Z := (2 ^ 31 - 1)%Z.
Definition is_count (z : Z) : Prop := (0 <= z <= INT_MAX)%Z.

End std.

(** ** The part of OpenImageIO the bridge uses

    Modelled from the spec: OpenImageIO is a library outside the sources.
    Each operation below is given, in the terms of the library's interface,
    the behaviour the spec states for it: the transpose over a region, the
    replication of a channel by [paste], the weighted sum of channels, the
    extraction of a channel range into caller-owned, row-major memory.  The
    numbers the library computes (format conversion, the weighted sum in
    [float], resampling, convolution) are parameters. *)

Module oiio.

(** [TypeDesc::BASETYPE]. *)
Inductive TypeDesc : Set :=
| UNKNOWN | UCHAR | CHAR | USHORT | SHORT | UINT | INT | HALF | FLOAT | DOUBLE.

#[global] Instance TypeDesc_eq_dec : EqDecision TypeDesc.
Proof. solve_decision. Defined.

(** The value of a named attribute of an [ImageSpec]. *)
Inductive AttrValue : Set :=
| AttrInt (i : Z)
| AttrStr (s : string).

#[global] Instance AttrValue_eq_dec : EqDecision AttrValue.
Proof. solve_decision. Defined.

(** [ImageSpec]: the resolution, channel count and element format of an
    image, and its named attributes ([extra_attribs]). *)
Record ImageSpec : Type := mkImageSpec {
  width : Z;
  height : Z;
  nchannels : Z;
  format : TypeDesc;
  extra_attribs : gmap string AttrValue
}.

(** [ImageSpec()] *)
Definition ImageSpec_default : ImageSpec := mkImageSpec 0 0 0 UNKNOWN ∅.

(** [ImageSpec(xres, yres, nchans, fmt)] *)
Definition ImageSpec_new (xres yres nchans : Z) (fmt : TypeDesc) : ImageSpec :=
  mkImageSpec xres yres nchans fmt ∅.

(** [spec.attribute(name, value)]: sets the attribute, replacing an earlier
    value of the same name. *)
Definition attribute (name : string) (v : AttrValue) (s : ImageSpec) : ImageSpec :=
  mkImageSpec (width s) (height s) (nchannels s) (format s)
              (<[name := v]> (extra_attribs s)).

(** [spec.format = fmt] *)
Definition set_format (fmt : TypeDesc) (s : ImageSpec) : ImageSpec :=
  mkImageSpec (width s) (height s) (nchannels s) fmt (extra_attribs s).

(** [spec.nchannels = n] *)
Definition set_nchannels (n : Z) (s : ImageSpec) : ImageSpec :=
  mkImageSpec (width s) (height s) n (format s) (extra_attribs s).

(** [ROI]: a rectangle of pixels and a channel range, half-open. *)
Record ROI : Set := mkROI {
  xbegin : Z; xend : Z;
  ybegin : Z; yend : Z;
  zbegin : Z; zend : Z;
  chbegin : Z; chend : Z
}.

Definition INT_MIN : Z := (- 2 ^ 31)%Z.

(** [ROI::All()]: the default-constructed, undefined region, which every
    algorithm reads as "the whole image". *)
Definition All : ROI := mkROI INT_MIN 0 0 0 0 0 0 0.

(** [roi.defined()] *)
Definition defined (r : ROI) : bool := negb (xbegin r =? INT_MIN)%Z.

(** [roi.chbegin = b] and [roi.chend = e] *)
Definition set_chbegin (b : Z) (r : ROI) : ROI :=
  mkROI (xbegin r) (xend r) (ybegin r) (yend r) (zbegin r) (zend r) b (chend r).
Definition set_chend (e : Z) (r : ROI) : ROI :=
  mkROI (xbegin r) (xend r) (ybegin r) (yend r) (zbegin r) (zend r) (chbegin r) e.

(** [get_roi(spec)]: the pixel data window of a two-dimensional image whose
    origin is (0,0). *)
Definition get_roi (s : ImageSpec) : ROI :=
  mkROI 0 (width s) 0 (height s) 0 1 0 (nchannels s).

(** The integers [b, b+1, ..., e-1], in the order a [for] loop visits them. *)
Definition zrange (b e : Z) : list Z :=
  map (fun i => (b + Z.of_nat i)%Z) (seq 0 (Z.to_nat (e - b))).

(** [ImageBuf]: an image held in memory.  A default-constructed buffer, and
    one whose file could not be opened, is not [initialized].  [pixel x y c]
    is component [c] of the pixel at column [x], row [y]. *)
Record ImageBuf (sample : Type) : Type := mkImageBuf {
  initialized : bool;
  spec : ImageSpec;
  pixel : Z -> Z -> Z -> sample
}.
Arguments mkImageBuf {sample}.
Arguments initialized {sample}.
Arguments spec {sample}.
Arguments pixel {sample}.

(** What the library computes on pixel components, left open: the zero
    component, the conversion of a component from one element format to
    another one, and the weighted sum of the components of one pixel
    ([ImageBufAlgo::channel_sum]'s inner loop, over [float] weights). *)
Class Samples (sample : Type) : Type := {
  zero : sample;
  convert_ext : TypeDesc -> TypeDesc -> sample -> sample;
  weighted_sum : TypeDesc -> list Q -> list sample -> sample
}.

(** The library's resampling and convolution, left open; [cfloat] stands
    for the C++ type [float] of their size arguments. *)
Class Algorithms (sample cfloat : Type) : Type := {
  resize_sample :
    ImageSpec -> ImageBuf sample -> string -> cfloat -> Z -> Z -> Z -> sample;
  make_kernel_buf : string -> cfloat -> cfloat -> ImageBuf sample;
  convolve_sample :
    ImageSpec -> ImageBuf sample -> ImageBuf sample -> Z -> Z -> Z -> sample
}.

(** The files: what opening a path with a configuration yields, and whether
    writing a buffer to a path succeeds. *)
Class Files (sample : Type) : Type := {
  open_file : string -> ImageSpec -> ImageBuf sample;
  write_file : ImageBuf sample -> string -> bool
}.

Section Buffers.
Context {sample : Type} `{!Samples sample}.

(** Conversion between element formats; between equal formats the
    components are copied as they are. *)
Definition convert (from to : TypeDesc) (v : sample) : sample :=
  if decide (from = to) then v else convert_ext from to v.

(** [ImageBuf()] *)
Definition ImageBuf_default : ImageBuf sample :=
  mkImageBuf false ImageSpec_default (fun _ _ _ => zero).

(** [ImageBuf(spec)]: a freshly allocated buffer, zero-filled. *)
Definition ImageBuf_alloc (s : ImageSpec) : ImageBuf sample :=
  mkImageBuf true s (fun _ _ _ => zero).

(** The data window of a spec. *)
Definition in_window (s : ImageSpec) (x y c : Z) : bool :=
  ((0 <=? x) && (x <? width s) && (0 <=? y) && (y <? height s)
   && (0 <=? c) && (c <? nchannels s))%Z.

(** Reading a component; outside the data window a buffer reads as zero. *)
Definition getchannel (b : ImageBuf sample) (x y c : Z) : sample :=
  if initialized b && in_window (spec b) x y c then pixel b x y c else zero.

(** [ImageBuf(spec, data)]: a buffer that wraps the caller's memory, which
    holds the components row by row, the channels of a pixel side by side. *)
Definition ImageBuf_wrap (s : ImageSpec) (data : list sample) : ImageBuf sample :=
  mkImageBuf true s
    (fun x y c => nth (Z.to_nat ((y * width s + x) * nchannels s + c)) data zero).

(** [buf.roi()] *)
Definition roi (b : ImageBuf sample) : ROI := get_roi (spec b).

(** [self.copy(src)]: [self] becomes a copy of [src], spec and pixels. *)
Definition copy (self src : ImageBuf sample) : ImageBuf sample :=
  if initialized src then mkImageBuf true (spec src) (pixel src)
  else ImageBuf_default.

(** [buf.get_pixels(roi, format, result)]: the components of the region, row
    by row, converted to [format]; an undefined region is the whole image,
    and the channel range is cut at the buffer's channel count. *)
Definition get_pixels (b : ImageBuf sample) (r : ROI) (fmt : TypeDesc) : list sample :=
  let r := if defined r then r else roi b in
  flat_map (fun y =>
    flat_map (fun x =>
      map (fun c => convert (format (spec b)) fmt (getchannel b x y c))
          (zrange (chbegin r) (Z.min (chend r) (nchannels (spec b)))))
      (zrange (xbegin r) (xend r)))
    (zrange (ybegin r) (yend r)).

(** [dst.copy_pixels(src)]: the pixels of [src] are copied into [dst],
    converted to the format [dst] has; [dst] keeps its spec, and what [src]
    does not cover is set to zero. *)
Definition copy_pixels (dst src : ImageBuf sample) : ImageBuf sample :=
  mkImageBuf (initialized dst) (spec dst)
    (fun x y c => convert (format (spec src)) (format (spec dst)) (getchannel src x y c)).

(** The components [f x y c] of a [W] x [H] image with [K] channels in the
    order [get_pixels] writes them: row by row, the channels of a pixel side
    by side. *)
Definition serialise (W H K : Z) (f : Z -> Z -> Z -> sample) : list sample :=
  flat_map (fun y =>
    flat_map (fun x => map (fun c => f x y c) (zrange 0 K)) (zrange 0 W))
    (zrange 0 H).

(** [ImageBufAlgo::transpose(dst, src, roi)]: [dst] is allocated with the
    width and height of the region exchanged, and [dst(y,x) = src(x,y)]. *)
Definition transpose (src : ImageBuf sample) (r : ROI) : ImageBuf sample :=
  let r := if defined r then r else roi src in
  let s := spec src in
  mkImageBuf true
    (mkImageSpec (yend r - ybegin r) (xend r - xbegin r) (nchannels s) (format s)
                 (extra_attribs s))
    (fun x y c => getchannel src (xbegin r + y) (ybegin r + x) c).

(** [ImageBufAlgo::paste(dst, xbegin, ybegin, zbegin, chbegin, src)]: the
    whole of [src] is copied into the allocated [dst], its origin placed at
    the given pixel and channel, converted to [dst]'s format; what falls
    outside [dst] is dropped.  (The bridge pastes into allocated buffers
    only; an uninitialized [dst] is left as it is.) *)
Definition paste (dst : ImageBuf sample) (xb yb zb chb : Z) (src : ImageBuf sample)
  : ImageBuf sample :=
  if initialized dst && initialized src && (zb =? 0)%Z then
    mkImageBuf true (spec dst)
      (fun x y c =>
         if in_window (spec src) (x - xb) (y - yb) (c - chb)
         then convert (format (spec src)) (format (spec dst))
                      (pixel src (x - xb) (y - yb) (c - chb))
         else pixel dst x y c)
  else dst.

(** [ImageBufAlgo::channel_sum(dst, src, weights, roi)]: [dst] is allocated
    with one channel, the weighted sum of the channels of the region. *)
Definition channel_sum (src : ImageBuf sample) (weights : list Q) (r : ROI)
  : ImageBuf sample :=
  let r := if defined r then r else roi src in
  mkImageBuf true (set_nchannels 1 (spec src))
    (fun x y _ =>
       weighted_sum (format (spec src)) weights
         (map (getchannel src x y)
              (zrange (chbegin r) (Z.min (chend r) (nchannels (spec src)))))).

End Buffers.

Section Algorithms.
Context {sample cfloat : Type} `{!Samples sample} `{!Algorithms sample cfloat}.

(** [ImageBufAlgo::resize(dst, src, filtername, filterwidth, roi)] into an
    allocated [dst]: every pixel of [dst] is resampled from [src]. *)
Definition resize (dst src : ImageBuf sample) (filtername : string)
  (filterwidth : cfloat) (r : ROI) : ImageBuf sample :=
  mkImageBuf (initialized dst) (spec dst)
             (resize_sample (spec dst) src filtername filterwidth).

(** [ImageBufAlgo::make_kernel(K, name, width, height)] *)
Definition make_kernel (name : string) (w h : cfloat) : ImageBuf sample :=
  make_kernel_buf name w h.

(** [ImageBufAlgo::convolve(dst, src, kernel)] into an allocated [dst]. *)
Definition convolve (dst src kernel : ImageBuf sample) : ImageBuf sample :=
  mkImageBuf (initialized dst) (spec dst)
             (convolve_sample (spec dst) src kernel).

End Algorithms.

(** [ImageInput]: a file opened for reading, of which the bridge uses the
    spec only. *)
Record ImageInput : Type := mkImageInput {
  input_spec : ImageSpec
}.

(** [ImageInput::open(path)]: the opened input, or no input (a null pointer)
    when the file cannot be opened. *)
Class Inputs : Type := {
  ImageInput_open : string -> option ImageInput
}.

End oiio.

(** ** The bridge: namespace [imageIO] *)

Module imageIO.

(** [std::runtime_error(what)], the one exception type the bridge throws. *)
Inductive exception : Set :=
| runtime_error (what : string).

(** How a call ends: it returns, it throws, or an [assert] aborts it. *)
Inductive outcome (A : Type) : Type :=
| Returned (a : A)
| Thrown (e : exception)
| AssertionFailed.
Arguments Returned {A}.
Arguments Thrown {A}.
Arguments AssertionFailed {A}.

(** A computation over the objects a function holds by reference: what it
    wrote before it threw stays written. *)
Definition M (S A : Type) : Type := S -> outcome A * S.

#[global] Instance M_ret {S} : MRet (M S) := fun A a st => (Returned a, st).

#[global] Instance M_bind {S} : MBind (M S) := fun A B k m st =>
  match m st with
  | (Returned a, st') => k a st'
  | (Thrown e, st') => (Thrown e, st')
  | (AssertionFailed, st') => (AssertionFailed, st')
  end.

(** [throw e]: the call ends, the references keep what was written. *)
Definition throw {S A} (e : exception) : M S A := fun st => (Thrown e, st).

(** [assert(b)], in a build that keeps assertions ([NDEBUG] not defined). *)
Definition assert {S} (b : bool) : M S unit :=
  fun st => if b then (Returned tt, st) else (AssertionFailed, st).

Definition modify {S} (f : S -> S) : M S unit := fun st => (Returned tt, f st).

(** The three errors of the spec, by the message each [throw] site builds. *)
Definition FileOpenError (path : string) : exception :=
  runtime_error ("Can't find/open image file '" +:+ path +:+ "'.").
Definition UnsupportedChannelLayoutError (path : string) : exception :=
  runtime_error ("Can't load channels of image file '" +:+ path +:+ "'.").
Definition FileWriteError (path : string) : exception :=
  runtime_error ("Can't write output image file '" +:+ path +:+ "'.").

(** Modelled from the spec: the element types [rgb] and [Color] are declared
    in [mv_structures.hpp] and [mv_color.hpp], which are not among the
    sources; the spec's data model gives the four element types as unsigned
    byte, 3-component byte triple, 32-bit float and 3-component float
    triple. *)
Inductive ElemType : Set :=
| T_uchar | T_rgb | T_float | T_Color.

(** The scalar components one element of type [T] holds. *)
Definition components (T : ElemType) : nat :=
  match T with
  | T_uchar | T_float => 1
  | T_rgb | T_Color => 3
  end.

Section Vector.
Context {sample : Type} `{!oiio.Samples sample}.

(** [v.size()], in elements of type [T]. *)
Definition vector_size (T : ElemType) (v : list sample) : nat :=
  length v / components T.

(** [v.resize(n)]: the first [n] elements are kept, new ones are
    value-initialized. *)
Definition vector_resize (T : ElemType) (n : Z) (v : list sample) : list sample :=
  let m := Z.to_nat n * components T in
  firstn m v ++ repeat oiio.zero (m - length v).

(** Writing [vals] through [v.data()], from the first component on.  (A
    write past the end of the vector is undefined behaviour in C++; the
    model drops what does not fit.) *)
Definition store (vals v : list sample) : list sample :=
  firstn (length v) vals ++ skipn (length vals) v.

End Vector.

(** The objects [readImage] holds by reference. *)
Record Refs (sample : Type) : Type := mkRefs {
  width : Z;
  height : Z;
  buffer : list sample
}.
Arguments mkRefs {sample}.
Arguments width {sample}.
Arguments height {sample}.
Arguments buffer {sample}.

(** One call of [ImageBuf::write]: the buffer, the path, and what the call
    returned. *)
Record WriteCall (sample : Type) : Type := mkWriteCall {
  written : oiio.ImageBuf sample;
  target : string;
  succeeded : bool
}.
Arguments mkWriteCall {sample}.
Arguments written {sample}.
Arguments target {sample}.
Arguments succeeded {sample}.

Section Bridge.
Context {sample cfloat : Type}.
Context `{!oiio.Samples sample} `{!oiio.Algorithms sample cfloat} `{!oiio.Files sample}.

Local Abbreviation ImageBuf := (oiio.ImageBuf sample).

Definition set_width (w : Z) : M (Refs sample) unit :=
  modify (fun r => mkRefs w (height r) (buffer r)).
Definition set_height (h : Z) : M (Refs sample) unit :=
  modify (fun r => mkRefs (width r) h (buffer r)).
Definition update_buffer (f : list sample -> list sample) : M (Refs sample) unit :=
  modify (fun r => mkRefs (width r) (height r) (f (buffer r))).

(** The libRAW configuration of [readImage]. *)
Definition configSpec : oiio.ImageSpec :=
  oiio.attribute "raw:use_camera_matrix" (oiio.AttrInt 3)
    (oiio.attribute "raw:ColorSpace" (oiio.AttrStr "sRGB")
      (oiio.attribute "raw:use_camera_wb" (oiio.AttrInt 1)
        (oiio.attribute "raw:auto_bright" (oiio.AttrInt 0)
          oiio.ImageSpec_default))).

(** [const float weights[3] = {.2126, .7152, .0722}], the literals as they
    are written. *)
Definition weights : list Q := [0.2126; 0.7152; 0.0722]%Q.

(** The template [readImage<T>].  [inSpec] is a reference to the spec of
    [inBuf], so every use of it reads the spec [inBuf] has at that point. *)
Definition readImage (T : ElemType) (path : string) (typeDesc : oiio.TypeDesc)
  (nchannels : Z) : M (Refs sample) unit :=
  assert ((nchannels =? 1) || (nchannels >=? 3))%Z;;
  let inBuf : ImageBuf := oiio.open_file path configSpec in
  if negb (oiio.initialized inBuf) then throw (FileOpenError path)
  else if (negb (oiio.nchannels (oiio.spec inBuf) =? 1)
           && (oiio.nchannels (oiio.spec inBuf) <? 3))%Z
  then throw (UnsupportedChannelLayoutError path)
  else
    let inBuf :=
      if ((nchannels =? 1) && (oiio.nchannels (oiio.spec inBuf) >=? 3))%Z then
        let convertionROI := oiio.set_chend 3 (oiio.set_chbegin 0 (oiio.roi inBuf)) in
        let grayscaleBuf := oiio.channel_sum inBuf weights convertionROI in
        oiio.copy inBuf grayscaleBuf
      else inBuf in
    let inBuf :=
      if (nchannels >? oiio.nchannels (oiio.spec inBuf))%Z then
        let requestedSpec :=
          oiio.ImageSpec_new (oiio.width (oiio.spec inBuf))
                             (oiio.height (oiio.spec inBuf)) nchannels typeDesc in
        let requestedBuf := oiio.ImageBuf_alloc requestedSpec in
        let requestedBuf :=
          if ((oiio.nchannels requestedSpec >=? 3)
              && (oiio.nchannels (oiio.spec inBuf) <? 3))%Z then
            oiio.paste
              (oiio.paste (oiio.paste requestedBuf 0 0 0 0 inBuf) 0 0 0 1 inBuf)
              0 0 0 2 inBuf
          else requestedBuf in
        oiio.copy inBuf requestedBuf
      else inBuf in
    set_width (oiio.width (oiio.spec inBuf));;
    set_height (oiio.height (oiio.spec inBuf));;
    update_buffer
      (vector_resize T (oiio.width (oiio.spec inBuf)
                        * oiio.height (oiio.spec inBuf) * nchannels));;
    let exportROI := oiio.set_chend nchannels (oiio.set_chbegin 0 (oiio.roi inBuf)) in
    update_buffer (store (oiio.get_pixels inBuf exportROI typeDesc)).

(** The four public overloads of [readImage], by the element type of the
    buffer. *)
Definition readImage_uchar (path : string) : M (Refs sample) unit :=
  readImage T_uchar path oiio.UCHAR 1.
Definition readImage_rgb (path : string) : M (Refs sample) unit :=
  readImage T_rgb path oiio.UCHAR 3.
Definition readImage_float (path : string) : M (Refs sample) unit :=
  readImage T_float path oiio.FLOAT 1.
Definition readImage_Color (path : string) : M (Refs sample) unit :=
  readImage T_Color path oiio.FLOAT 3.

(** What [readImage] sees of the file behind [path]: whether it opens, and
    its channel count. *)
Definition source_opens (path : string) : Prop :=
  oiio.initialized (oiio.open_file path configSpec) = true.
Definition source_nchannels (path : string) : Z :=
  oiio.nchannels (oiio.spec (oiio.open_file path configSpec)).

(** The [int] product [w * h * n] of [readImage], evaluated from the left, is
    a count at each step. *)
Definition count_ok (w h n : Z) : Prop :=
  std.is_count (w * h) /\ std.is_count (w * h * n).

(** Overload resolution: the element type of the caller's buffer selects
    the overload. *)
Definition readImage_overload (T : ElemType) : string -> M (Refs sample) unit :=
  match T with
  | T_uchar => readImage_uchar
  | T_rgb => readImage_rgb
  | T_float => readImage_float
  | T_Color => readImage_Color
  end.

(** [bool isEXR] of [writeImage]: [&&] evaluates [compare] only when the
    path has more than four characters, so [path.size() - 4] does not wrap. *)
Definition isEXR (path : string) : bool :=
  (4 <? String.length path)
  && std.is_zero (std.string_compare path (String.length path - 4) 4 ".exr").

(** [outBuf.write(path)]: the call is recorded, with what it returned. *)
Definition ImageBuf_write (outBuf : ImageBuf) (path : string)
  : M (list (WriteCall sample)) bool :=
  fun calls =>
    let ok := oiio.write_file outBuf path in
    (Returned ok, mkWriteCall outBuf path ok :: calls).

(** The template [writeImage<T>]. *)
Definition writeImage (T : ElemType) (path : string) (typeDesc : oiio.TypeDesc)
  (width height nchannels : Z) (buffer : list sample)
  : M (list (WriteCall sample)) unit :=
  let imageSpec := oiio.ImageSpec_new width height nchannels typeDesc in
  if isEXR path then
    let buf := oiio.ImageBuf_wrap imageSpec buffer in
    let imageSpec := oiio.set_format oiio.HALF imageSpec in
    let imageSpec := oiio.attribute "compression" (oiio.AttrStr "piz") imageSpec in
    let outBuf := oiio.copy_pixels (oiio.ImageBuf_alloc imageSpec) buf in
    ok ← ImageBuf_write outBuf path;
    if negb ok then throw (FileWriteError path) else mret tt
  else
    let imageSpec := oiio.attribute "jpeg:subsampling" (oiio.AttrStr "4:4:4") imageSpec in
    let imageSpec := oiio.attribute "CompressionQuality" (oiio.AttrInt 100) imageSpec in
    let imageSpec := oiio.attribute "compression" (oiio.AttrStr "none") imageSpec in
    let outBuf := oiio.ImageBuf_wrap imageSpec buffer in
    ok ← ImageBuf_write outBuf path;
    if negb ok then throw (FileWriteError path) else mret tt.

Definition writeImage_uchar (path : string) (width height : Z) (buffer : list sample) :=
  writeImage T_uchar path oiio.UCHAR width height 1 buffer.
Definition writeImage_rgb (path : string) (width height : Z) (buffer : list sample) :=
  writeImage T_rgb path oiio.UCHAR width height 3 buffer.
Definition writeImage_float (path : string) (width height : Z) (buffer : list sample) :=
  writeImage T_float path oiio.FLOAT width height 1 buffer.
Definition writeImage_Color (path : string) (width height : Z) (buffer : list sample) :=
  writeImage T_Color path oiio.FLOAT width height 3 buffer.

(** The template [transposeImage<T>]; the result is the buffer after the
    call.  [width] and [height] are passed by value and returned nowhere. *)
Definition transposeImage (T : ElemType) (typeDesc : oiio.TypeDesc)
  (width height nchannels : Z) (buffer : list sample) : list sample :=
  let imageSpec := oiio.ImageSpec_new width height nchannels typeDesc in
  let inBuf := oiio.ImageBuf_wrap imageSpec buffer in
  let transposeBuf := oiio.transpose inBuf oiio.All in
  store (oiio.get_pixels transposeBuf oiio.All typeDesc) buffer.

Definition transposeImage_uchar (width height : Z) (buffer : list sample) :=
  transposeImage T_uchar oiio.UCHAR width height 1 buffer.
Definition transposeImage_rgb (width height : Z) (buffer : list sample) :=
  transposeImage T_rgb oiio.UCHAR width height 3 buffer.
Definition transposeImage_float (width height : Z) (buffer : list sample) :=
  transposeImage T_float oiio.FLOAT width height 1 buffer.
Definition transposeImage_Color (width height : Z) (buffer : list sample) :=
  transposeImage T_Color oiio.FLOAT width height 3 buffer.

(** [const int outWidth = inWidth / downscale] and
    [const int outHeight = inHeight / downscale] of [resizeImage].  The
    [int] division by zero is undefined (it traps) and has no meaning here:
    the statements about [resizeImage] assume [downscale] is not zero. *)
Definition outWidth (inWidth downscale : Z) : Z := Z.quot inWidth downscale.
Definition outHeight (inHeight downscale : Z) : Z := Z.quot inHeight downscale.

(** The template [resizeImage<T>]; the result is [outBuffer] after the
    call. *)
Definition resizeImage (T : ElemType) (typeDesc : oiio.TypeDesc)
  (inWidth inHeight nchannels downscale : Z) (inBuffer outBuffer : list sample)
  (filter : string) (filterSize : cfloat) : list sample :=
  let outWidth := outWidth inWidth downscale in
  let outHeight := outHeight inHeight downscale in
  let outBuffer := vector_resize T (outWidth * outHeight) outBuffer in
  let inBuf :=
    oiio.ImageBuf_wrap (oiio.ImageSpec_new inWidth inHeight nchannels typeDesc) inBuffer in
  let outBuf :=
    oiio.ImageBuf_wrap (oiio.ImageSpec_new outWidth outHeight nchannels typeDesc) outBuffer in
  let outBuf := oiio.resize outBuf inBuf filter filterSize oiio.All in
  store (oiio.get_pixels outBuf oiio.All typeDesc) outBuffer.

Definition resizeImage_uchar (inWidth inHeight downscale : Z)
  (inBuffer outBuffer : list sample) (filter : string) (filterSize : cfloat) :=
  resizeImage T_uchar oiio.UCHAR inWidth inHeight 1 downscale inBuffer outBuffer
              filter filterSize.
Definition resizeImage_rgb (inWidth inHeight downscale : Z)
  (inBuffer outBuffer : list sample) (filter : string) (filterSize : cfloat) :=
  resizeImage T_rgb oiio.UCHAR inWidth inHeight 3 downscale inBuffer outBuffer
              filter filterSize.
Definition resizeImage_float (inWidth inHeight downscale : Z)
  (inBuffer outBuffer : list sample) (filter : string) (filterSize : cfloat) :=
  resizeImage T_float oiio.FLOAT inWidth inHeight 1 downscale inBuffer outBuffer
              filter filterSize.
Definition resizeImage_Color (inWidth inHeight downscale : Z)
  (inBuffer outBuffer : list sample) (filter : string) (filterSize : cfloat) :=
  resizeImage T_Color oiio.FLOAT inWidth inHeight 3 downscale inBuffer outBuffer
              filter filterSize.

(** The template [convolveImage<T>]; the result is [outBuffer] after the
    call. *)
Definition convolveImage (T : ElemType) (typeDesc : oiio.TypeDesc)
  (inWidth inHeight nchannels : Z) (inBuffer outBuffer : list sample)
  (kernel : string) (kernelWidth kernelHeight : cfloat) : list sample :=
  let outBuffer := vector_resize T (Z.of_nat (vector_size T inBuffer)) outBuffer in
  let inBuf :=
    oiio.ImageBuf_wrap (oiio.ImageSpec_new inWidth inHeight nchannels typeDesc) inBuffer in
  let outBuf :=
    oiio.ImageBuf_wrap (oiio.ImageSpec_new inWidth inHeight nchannels typeDesc) outBuffer in
  let K := oiio.make_kernel kernel kernelWidth kernelHeight in
  let outBuf := oiio.convolve outBuf inBuf K in
  store (oiio.get_pixels outBuf oiio.All typeDesc) outBuffer.

Definition convolveImage_uchar (inWidth inHeight : Z)
  (inBuffer outBuffer : list sample) (kernel : string) (kernelWidth kernelHeight : cfloat) :=
  convolveImage T_uchar oiio.UCHAR inWidth inHeight 1 inBuffer outBuffer
                kernel kernelWidth kernelHeight.
Definition convolveImage_rgb (inWidth inHeight : Z)
  (inBuffer outBuffer : list sample) (kernel : string) (kernelWidth kernelHeight : cfloat) :=
  convolveImage T_rgb oiio.UCHAR inWidth inHeight 3 inBuffer outBuffer
                kernel kernelWidth kernelHeight.
Definition convolveImage_float (inWidth inHeight : Z)
  (inBuffer outBuffer : list sample) (kernel : string) (kernelWidth kernelHeight : cfloat) :=
  convolveImage T_float oiio.FLOAT inWidth inHeight 1 inBuffer outBuffer
                kernel kernelWidth kernelHeight.
Definition convolveImage_Color (inWidth inHeight : Z)
  (inBuffer outBuffer : list sample) (kernel : string) (kernelWidth kernelHeight : cfloat) :=
  convolveImage T_Color oiio.FLOAT inWidth inHeight 3 inBuffer outBuffer
                kernel kernelWidth kernelHeight.

End Bridge.

(** The objects [readImageSpec] holds by reference, and the number of
    [ImageInput]s that are open. *)
Record SpecRefs : Type := mkSpecRefs {
  out_width : Z;
  out_height : Z;
  out_nchannels : Z;
  open_inputs : nat
}.

Section Spec.
Context `{!oiio.Inputs}.

(** [ImageInput::open(path)] as a step: an input that opens is open from
    then on. *)
Definition open_input (path : string) : M SpecRefs (option oiio.ImageInput) :=
  fun st =>
    match oiio.ImageInput_open path with
    | Some i =>
        (Returned (Some i),
         mkSpecRefs (out_width st) (out_height st) (out_nchannels st)
                    (S (open_inputs st)))
    | None => (Returned None, st)
    end.

(** [in->close()] *)
Definition close_input : M SpecRefs unit :=
  modify (fun st => mkSpecRefs (out_width st) (out_height st) (out_nchannels st)
                               (pred (open_inputs st))).

(** [readImageSpec]. *)
Definition readImageSpec (path : string) : M SpecRefs unit :=
  i ← open_input path;
  match i with
  | None => throw (FileOpenError path)
  | Some i =>
      let spec := oiio.input_spec i in
      modify (fun st => mkSpecRefs (oiio.width spec) (out_height st)
                                   (out_nchannels st) (open_inputs st));;
      modify (fun st => mkSpecRefs (out_width st) (oiio.height spec)
                                   (out_nchannels st) (open_inputs st));;
      modify (fun st => mkSpecRefs (out_width st) (out_height st)
                                   (oiio.nchannels spec) (open_inputs st));;
      close_input
  end.

End Spec.

End imageIO.

(** ** A concrete library and concrete files

    An instance of the parameters, on which the bridge can be run: integer
    components, conversion to [UCHAR] by clamping, an integer weighted sum,
    nearest-neighbour resampling, a convolution that copies, and three files. *)

Module Concrete.

(** The integer part of the weighted sum of a pixel's components. *)
Fixpoint dot (ws : list Q) (vs : list Z) : Q :=
  match ws, vs with
  | w :: ws', v :: vs' => Qplus (Qmult w (inject_Z v)) (dot ws' vs')
  | _, _ => 0%Q
  end.

#[global] Instance samples : oiio.Samples Z := {|
  oiio.zero := 0%Z;
  oiio.convert_ext := fun _ to v =>
    match to with
    | oiio.UCHAR => Z.max 0 (Z.min 255 v)
    | _ => v
    end;
  oiio.weighted_sum := fun _ ws vs => let q := dot ws vs in (Qnum q / Z.pos (Qden q))%Z
|}.

#[global] Instance algorithms : oiio.Algorithms Z Q := {|
  oiio.resize_sample := fun dst src _ _ x y c =>
    oiio.getchannel src
      (Z.quot (x * oiio.width (oiio.spec src)) (oiio.width dst))
      (Z.quot (y * oiio.height (oiio.spec src)) (oiio.height dst)) c;
  oiio.make_kernel_buf := fun _ _ _ => oiio.ImageBuf_default;
  oiio.convolve_sample := fun _ src _ x y c => oiio.getchannel src x y c
|}.

(** A 2x1 gray image, a 1x1 gray-alpha image and a 1x1 RGB image. *)
Definition gray_png : oiio.ImageBuf Z :=
  oiio.ImageBuf_wrap (oiio.ImageSpec_new 2 1 1 oiio.UCHAR) [10; 20]%Z.
Definition ga_png : oiio.ImageBuf Z :=
  oiio.ImageBuf_wrap (oiio.ImageSpec_new 1 1 2 oiio.UCHAR) [7; 255]%Z.
Definition rgb_png : oiio.ImageBuf Z :=
  oiio.ImageBuf_wrap (oiio.ImageSpec_new 1 1 3 oiio.UCHAR) [5; 5; 5]%Z.

#[global] Instance files : oiio.Files Z := {|
  oiio.open_file := fun path _ =>
    if String.eqb path "gray.png" then gray_png
    else if String.eqb path "ga.png" then ga_png
    else if String.eqb path "rgb.png" then rgb_png
    else oiio.ImageBuf_default;
  oiio.write_file := fun _ path => negb (String.eqb path "")
|}.

(** The caller's variables before a call of [readImage]. *)
Definition refs0 : imageIO.Refs Z := imageIO.mkRefs (-1) (-1) [42]%Z.

(** The same three files as [ImageInput]s, and the caller's variables before
    a call of [readImageSpec]. *)
#[global] Instance inputs : oiio.Inputs := {|
  oiio.ImageInput_open := fun path =>
    if String.eqb path "gray.png" then Some (oiio.mkImageInput (oiio.spec gray_png))
    else if String.eqb path "ga.png" then Some (oiio.mkImageInput (oiio.spec ga_png))
    else if String.eqb path "rgb.png" then Some (oiio.mkImageInput (oiio.spec rgb_png))
    else None
|}.
Definition specrefs0 : imageIO.SpecRefs := imageIO.mkSpecRefs (-1) (-1) (-1) 0.

End Concrete.

(** ** An exact library

    Modelled from the spec: [ImageBufAlgo::channel_sum] is not among the
    sources.  The spec gives the grayscale reduction as "a fixed weighted
    sum" of the first three channels; on components that are exact
    rationals this is the sum of [weights[c] * s[c]] over the channels
    handed to it, with no rounding.  The conversion between element formats
    stays a parameter. *)

Module Exact.

(** The conversion of a component between element formats, left open. *)
Class Conversion : Type := {
  convert_format : oiio.TypeDesc -> oiio.TypeDesc -> Qc -> Qc
}.

(** The weighted sum of the components of one pixel. *)
Fixpoint channel_sum_pixel (ws : list Q) (vs : list Qc) : Qc :=
  match ws, vs with
  | w :: ws', v :: vs' => (Q2Qc w * v + channel_sum_pixel ws' vs')%Qc
  | _, _ => 0%Qc
  end.

#[global] Instance samples `{!Conversion} : oiio.Samples Qc := {|
  oiio.zero := 0%Qc;
  oiio.convert_ext := convert_format;
  oiio.weighted_sum := fun _ => channel_sum_pixel
|}.

(** A conversion that changes nothing, and a 1x1 RGBA file whose pixel is the
    neutral gray 7/10 with alpha 1. *)
Definition keep : Conversion := {| convert_format := fun _ _ v => v |}.
Definition neutral_png : oiio.ImageBuf Qc :=
  @oiio.ImageBuf_wrap Qc (@samples keep) (oiio.ImageSpec_new 1 1 4 oiio.FLOAT)
    [Q2Qc 0.7; Q2Qc 0.7; Q2Qc 0.7; 1%Qc].
Definition files : oiio.Files Qc := {|
  oiio.open_file := fun path _ =>
    if String.eqb path "neutral.exr" then neutral_png else oiio.ImageBuf_default (Samples0 := @samples keep);
  oiio.write_file := fun _ _ => true
|}.
Definition refs0 : imageIO.Refs Qc := imageIO.mkRefs (-1) (-1) [].

End Exact.

(** * Facts *)

(** ** Strings *)

Lemma string_compare_refl (s : string) : String.compare s s = Eq.
Proof.
  pose proof (String.compare_antisym s s) as H.
  destruct (String.compare s s); simpl in H; congruence.
Qed.

Lemma is_zero_compare (s t : string) :
  std.is_zero (String.compare s t) = true <-> s = t.
Proof.
  split.
  - destruct (String.compare s t) eqn:E; simpl; try discriminate.
    intros _. now apply String.compare_eq_iff.
  - intros ->. now rewrite string_compare_refl.
Qed.

Lemma string_length_append (s t : string) :
  String.length (s +:+ t) = String.length s + String.length t.
Proof. induction s as [|c s IH]; simpl; [reflexivity | now rewrite IH]. Qed.

Lemma substring_whole (s : string) : String.substring 0 (String.length s) s = s.
Proof. induction s as [|c s IH]; simpl; [reflexivity | now rewrite IH]. Qed.

Lemma substring_append_r (s t : string) :
  String.substring (String.length s) (String.length t) (s +:+ t) = t.
Proof.
  induction s as [|c s IH]; simpl.
  - apply substring_whole.
  - exact IH.
Qed.

Lemma substring_split (s : string) :
  forall k m, k + m = String.length s ->
    s = String.substring 0 k s +:+ String.substring k m s.
Proof.
  induction s as [|c s IH]; intros k m Hkm; simpl in Hkm.
  - assert (k = 0) by lia. assert (m = 0) by lia. subst. reflexivity.
  - destruct k as [|k].
    + simpl in Hkm. subst m. simpl. now rewrite substring_whole.
    + change (String c s
              = String c (String.substring 0 k s +:+ String.substring k m s)).
      f_equal. apply IH. lia.
Qed.

Section WriteFacts.
Context {sample cfloat : Type}.
Context `{!oiio.Samples sample} `{!oiio.Algorithms sample cfloat} `{!oiio.Files sample}.


(** The two branches of [writeImage] by its flag [isEXR].  Every call makes
    exactly one [write] call, on the
    caller's path, and throws [FileWriteError] exactly when that call fails.
    If the flag is set, the buffer written has element format [HALF]
    and the one attribute [compression = piz]; otherwise it keeps the
    caller's element format and carries [jpeg:subsampling = 4:4:4],
    [CompressionQuality = 100] and [compression = none].  Width, height and
    channel count are the caller's in both branches. *)
Lemma writeImage_exr_half_piz_else_444_q100_none
  (T : imageIO.ElemType) (path : string) (typeDesc : oiio.TypeDesc)
  (width height nchannels : Z) (buffer : list sample)
  (calls : list (imageIO.WriteCall sample)) :
  exists (outBuf : oiio.ImageBuf sample) (ok : bool),
    imageIO.writeImage T path typeDesc width height nchannels buffer calls
    = (if ok then imageIO.Returned tt else imageIO.Thrown (imageIO.FileWriteError path),
       imageIO.mkWriteCall outBuf path ok :: calls)
    /\ ok = oiio.write_file outBuf path
    /\ oiio.width (oiio.spec outBuf) = width
    /\ oiio.height (oiio.spec outBuf) = height
    /\ oiio.nchannels (oiio.spec outBuf) = nchannels
    /\ (imageIO.isEXR path = true ->
        oiio.format (oiio.spec outBuf) = oiio.HALF
        /\ oiio.extra_attribs (oiio.spec outBuf)
           = <["compression" := oiio.AttrStr "piz"]> ∅)
    /\ (imageIO.isEXR path = false ->
        oiio.format (oiio.spec outBuf) = typeDesc
        /\ oiio.extra_attribs (oiio.spec outBuf)
           = <["compression" := oiio.AttrStr "none"]>
               (<["CompressionQuality" := oiio.AttrInt 100]>
                  (<["jpeg:subsampling" := oiio.AttrStr "4:4:4"]> ∅))).
Proof.
  unfold imageIO.writeImage.
  destruct (imageIO.isEXR path) eqn:Hexr;
    unfold mbind, imageIO.M_bind, imageIO.ImageBuf_write; simpl;
    match goal with
    | |- context [oiio.write_file ?b path] => exists b, (oiio.write_file b path)
    end;
    (split; [destruct (oiio.write_file _ path); reflexivity|]);
    repeat split; try reflexivity; intros; discriminate.
Qed.

(** The flag [isEXR], in terms of the path alone. *)
Lemma isEXR_true_iff (path : string) :
  imageIO.isEXR path = true
  <-> 4 < String.length path /\ exists stem : string, path = stem +:+ ".exr".
Proof.
  unfold imageIO.isEXR, std.string_compare.
  rewrite andb_true_iff, Nat.ltb_lt, is_zero_compare.
  split.
  - intros [Hlen Hsub]. split; [exact Hlen|].
    exists (String.substring 0 (String.length path - 4) path).
    pose proof (substring_split path (String.length path - 4) 4 ltac:(lia)) as Hs.
    now rewrite Hsub in Hs.
  - intros [Hlen [stem ->]]. split; [exact Hlen|].
    rewrite string_length_append in *. simpl in *.
    replace (String.length stem + 4 - 4) with (String.length stem) by lia.
    exact (substring_append_r stem ".exr").
Qed.

(** C6 (as amended).  Every call of [writeImage] makes exactly one [write]
    call, on the caller's path, with the caller's width, height and channel
    count, and throws [FileWriteError] exactly when that call fails.  If the
    path has more than four characters and ends in the lower-case [.exr],
    the buffer written has element format [HALF] and the one attribute
    [compression = piz].  For every other path -- the path [.exr] itself
    and the upper-case endings among them -- it keeps the caller's element
    format and carries [jpeg:subsampling = 4:4:4], [CompressionQuality =
    100] and [compression = none]. *)
Theorem writeImage_long_exr_path_half_piz_else_444_q100_none
  (T : imageIO.ElemType) (path : string) (typeDesc : oiio.TypeDesc)
  (width height nchannels : Z) (buffer : list sample)
  (calls : list (imageIO.WriteCall sample)) :
  exists (outBuf : oiio.ImageBuf sample) (ok : bool),
    imageIO.writeImage T path typeDesc width height nchannels buffer calls
    = (if ok then imageIO.Returned tt else imageIO.Thrown (imageIO.FileWriteError path),
       imageIO.mkWriteCall outBuf path ok :: calls)
    /\ ok = oiio.write_file outBuf path
    /\ oiio.width (oiio.spec outBuf) = width
    /\ oiio.height (oiio.spec outBuf) = height
    /\ oiio.nchannels (oiio.spec outBuf) = nchannels
    /\ (4 < String.length path /\ (exists stem : string, path = stem +:+ ".exr") ->
        oiio.format (oiio.spec outBuf) = oiio.HALF
        /\ oiio.extra_attribs (oiio.spec outBuf)
           = <["compression" := oiio.AttrStr "piz"]> ∅)
    /\ (~ (4 < String.length path /\ exists stem : string, path = stem +:+ ".exr") ->
        oiio.format (oiio.spec outBuf) = typeDesc
        /\ oiio.extra_attribs (oiio.spec outBuf)
           = <["compression" := oiio.AttrStr "none"]>
               (<["CompressionQuality" := oiio.AttrInt 100]>
                  (<["jpeg:subsampling" := oiio.AttrStr "4:4:4"]> ∅))).
Proof.
  destruct (writeImage_exr_half_piz_else_444_q100_none
              T path typeDesc width height nchannels buffer calls)
    as (outBuf & ok & Hrun & Hok & Hw & Hh & Hn & Hexr & Hplain).
  exists outBuf, ok.
  do 5 (split; [assumption|]).
  split.
  - intros Hpath. apply Hexr. now apply isEXR_true_iff.
  - intros Hpath. apply Hplain.
    destruct (imageIO.isEXR path) eqn:Hflag; [|reflexivity].
    exfalso. apply Hpath. now apply isEXR_true_iff.
Qed.

End WriteFacts.

(** ** [readImage]: how a call ends *)

Section ReadOutcome.
Context {sample cfloat : Type}.
Context `{!oiio.Samples sample} `{!oiio.Algorithms sample cfloat} `{!oiio.Files sample}.

(** The four ways a call of the template ends, in the order of its checks. *)
Lemma readImage_outcome (T : imageIO.ElemType) (path : string)
  (typeDesc : oiio.TypeDesc) (nchannels : Z) (st : imageIO.Refs sample) :
  let r := imageIO.readImage T path typeDesc nchannels st in
  if ((nchannels =? 1) || (nchannels >=? 3))%Z then
    if oiio.initialized (oiio.open_file path imageIO.configSpec) then
      if (negb (imageIO.source_nchannels path =? 1) && (imageIO.source_nchannels path <? 3))%Z
      then r = (imageIO.Thrown (imageIO.UnsupportedChannelLayoutError path), st)
      else fst r = imageIO.Returned tt
    else r = (imageIO.Thrown (imageIO.FileOpenError path), st)
  else r = (imageIO.AssertionFailed, st).
Proof.
  unfold imageIO.readImage, imageIO.source_nchannels; cbv zeta.
  unfold mbind, imageIO.M_bind, imageIO.assert, imageIO.throw.
  destruct ((nchannels =? 1) || (nchannels >=? 3))%Z; [|reflexivity].
  destruct (oiio.initialized (oiio.open_file path imageIO.configSpec));
    simpl negb; cbv iota; [|reflexivity].
  destruct (negb _ && _); reflexivity.
Qed.

(** C2.  For each of the four pixel kinds, on a source that opens:
    [readImage] throws [UnsupportedChannelLayoutError] when the source's
    channel count is neither 1 nor at least 3, and returns normally when it
    is 1 or at least 3. *)
Theorem readImage_unsupported_channels_iff_not_1_nor_ge_3
  (T : imageIO.ElemType) (path : string) (st : imageIO.Refs sample) :
  imageIO.source_opens path ->
  (imageIO.source_nchannels path <> 1%Z /\ (imageIO.source_nchannels path < 3)%Z ->
   fst (imageIO.readImage_overload T path st)
   = imageIO.Thrown (imageIO.UnsupportedChannelLayoutError path))
  /\ (imageIO.source_nchannels path = 1%Z \/ (imageIO.source_nchannels path >= 3)%Z ->
      fst (imageIO.readImage_overload T path st) = imageIO.Returned tt).
Proof.
  intros Hopen. unfold imageIO.source_opens in Hopen.
  assert (Hgen : exists typeDesc n,
             imageIO.readImage_overload T path st
             = imageIO.readImage T path typeDesc n st
             /\ ((n =? 1) || (n >=? 3))%Z = true).
  { destruct T; eexists _, _; (split; [reflexivity|reflexivity]). }
  destruct Hgen as (typeDesc & n & -> & Hn).
  pose proof (readImage_outcome T path typeDesc n st) as Hout.
  cbv zeta in Hout. rewrite Hn, Hopen in Hout.
  split; intros Hc.
  - replace (negb (imageIO.source_nchannels path =? 1) && (imageIO.source_nchannels path <? 3))%Z
      with true in Hout.
    + now rewrite Hout.
    + symmetry. apply andb_true_iff. split.
      * apply negb_true_iff, Z.eqb_neq. tauto.
      * apply Z.ltb_lt. tauto.
  - replace (negb (imageIO.source_nchannels path =? 1) && (imageIO.source_nchannels path <? 3))%Z
      with false in Hout; [exact Hout|].
    symmetry. apply andb_false_iff.
    destruct Hc as [Hc|Hc].
    + left. apply negb_false_iff, Z.eqb_eq. exact Hc.
    + right. apply Z.ltb_ge. lia.
Qed.

(** C8.  When a call of [readImage] throws, the caller's [width], [height]
    and [buffer] are what they were before the call, and the exception is
    [FileOpenError] or [UnsupportedChannelLayoutError]. *)
Theorem readImage_throw_leaves_refs_unchanged
  (T : imageIO.ElemType) (path : string) (typeDesc : oiio.TypeDesc)
  (nchannels : Z) (st : imageIO.Refs sample) (e : imageIO.exception) :
  fst (imageIO.readImage T path typeDesc nchannels st) = imageIO.Thrown e ->
  snd (imageIO.readImage T path typeDesc nchannels st) = st
  /\ (e = imageIO.FileOpenError path
      \/ e = imageIO.UnsupportedChannelLayoutError path).
Proof.
  intros Hthrow.
  pose proof (readImage_outcome T path typeDesc nchannels st) as Hout.
  cbv zeta in Hout.
  destruct ((nchannels =? 1) || (nchannels >=? 3))%Z.
  - destruct (oiio.initialized (oiio.open_file path imageIO.configSpec)).
    + destruct (negb _ && _).
      * rewrite Hout in Hthrow |- *. simpl in *. split; [reflexivity|].
        right. congruence.
      * congruence.
    + rewrite Hout in Hthrow |- *. simpl in *. split; [reflexivity|].
      left. congruence.
  - rewrite Hout in Hthrow. discriminate.
Qed.

(** C10.  Each of the four public overloads of [readImage] calls the
    template with a requested channel count of exactly 1 or exactly 3, and
    so never ends in the failure of the template's assertion -- which does
    fail for every requested count that is neither 1 nor at least 3. *)
Theorem readImage_overloads_satisfy_assertion :
  (forall (T : imageIO.ElemType) (path : string) (st : imageIO.Refs sample),
      (exists typeDesc n,
          (n = 1 \/ n = 3)%Z
          /\ imageIO.readImage_overload T path = imageIO.readImage T path typeDesc n)
      /\ fst (imageIO.readImage_overload T path st) <> imageIO.AssertionFailed)
  /\ (forall (T : imageIO.ElemType) (path : string) (typeDesc : oiio.TypeDesc)
        (n : Z) (st : imageIO.Refs sample),
        fst (imageIO.readImage T path typeDesc n st) = imageIO.AssertionFailed
        <-> ~ (n = 1 \/ n >= 3)%Z).
Proof.
  assert (Hiff : forall T path typeDesc n (st : imageIO.Refs sample),
             fst (imageIO.readImage T path typeDesc n st) = imageIO.AssertionFailed
             <-> ~ (n = 1 \/ n >= 3)%Z).
  { intros T path typeDesc n st.
    pose proof (readImage_outcome T path typeDesc n st) as Hout. cbv zeta in Hout.
    destruct ((n =? 1) || (n >=? 3))%Z eqn:Hn.
    - apply orb_true_iff in Hn.
      rewrite Z.eqb_eq, Z.geb_le in Hn.
      split; [|intros Hc; exfalso; apply Hc; lia].
      intros Hf. exfalso.
      destruct (oiio.initialized (oiio.open_file path imageIO.configSpec)).
      + destruct (negb _ && _); [rewrite Hout in Hf|]; simpl in *; congruence.
      + rewrite Hout in Hf. discriminate.
    - apply orb_false_iff in Hn. rewrite Z.eqb_neq, Z.geb_leb, Z.leb_gt in Hn.
      rewrite Hout. simpl. split; [intros _; lia | reflexivity]. }
  split; [|exact Hiff].
  intros T path st. split.
  - destruct T; eexists _, _; (split; [|reflexivity]); lia.
  - destruct T; simpl;
      unfold imageIO.readImage_uchar, imageIO.readImage_rgb,
        imageIO.readImage_float, imageIO.readImage_Color;
      rewrite Hiff; lia.
Qed.

End ReadOutcome.

(** ** Lists, ranges and the row-major layout *)

Section ListFacts.
Context {A B : Type}.

(** In a concatenation of blocks of one length [k], component [j] of block
    [i] is at position [i * k + j]. *)
Lemma nth_flat_map_uniform (f : A -> list B) (k : nat) (d : B) (a0 : A) :
  (forall a, length (f a) = k) ->
  forall (l : list A) (i j : nat), i < length l -> j < k ->
    nth (i * k + j) (flat_map f l) d = nth j (f (nth i l a0)) d.
Proof.
  intros Hk. induction l as [|a l IH]; intros i j Hi Hj; simpl in *; [lia|].
  destruct i as [|i].
  - simpl. rewrite app_nth1; [reflexivity | rewrite Hk; lia].
  - rewrite app_nth2; rewrite Hk; [|lia].
    replace (S i * k + j - k) with (i * k + j) by lia.
    apply IH; lia.
Qed.

Lemma length_flat_map_uniform (f : A -> list B) (k : nat) (l : list A) :
  (forall a, length (f a) = k) -> length (flat_map f l) = length l * k.
Proof. intros Hk. apply flat_map_constant_length. intros a _. apply Hk. Qed.

Lemma flat_map_ext_on (f g : A -> list B) (l : list A) :
  (forall a, In a l -> f a = g a) -> flat_map f l = flat_map g l.
Proof.
  induction l as [|a l IH]; intros Hfg; simpl; [reflexivity|].
  rewrite (Hfg a) by now left.
  rewrite IH; [reflexivity|]. intros b Hb. apply Hfg. now right.
Qed.

End ListFacts.

Lemma length_zrange (b e : Z) : length (oiio.zrange b e) = Z.to_nat (e - b).
Proof. unfold oiio.zrange. now rewrite length_map, length_seq. Qed.

Lemma nth_zrange (b e : Z) (i : nat) (d : Z) :
  i < Z.to_nat (e - b) -> nth i (oiio.zrange b e) d = (b + Z.of_nat i)%Z.
Proof.
  intros Hi. unfold oiio.zrange.
  set (f := fun i : nat => (b + Z.of_nat i)%Z).
  rewrite (nth_indep _ d (f 0)) by (now rewrite length_map, length_seq).
  rewrite map_nth, seq_nth by exact Hi. reflexivity.
Qed.

Lemma in_zrange (b e z : Z) : In z (oiio.zrange b e) <-> (b <= z < e)%Z.
Proof.
  unfold oiio.zrange. rewrite in_map_iff. split.
  - intros (i & <- & Hi). apply in_seq in Hi. lia.
  - intros Hz. exists (Z.to_nat (z - b)). split; [lia|]. apply in_seq. lia.
Qed.

Section Serialise.
Context {sample : Type} {smp : oiio.Samples sample}.

(** The layout [serialise W H K] has [H * W * K] components, and the
    component of pixel [(x, y)], channel [c], at position
    [(y * W + x) * K + c]. *)
Lemma length_serialise (W H K : Z) (f : Z -> Z -> Z -> sample) :
  length (oiio.serialise W H K f) = Z.to_nat H * (Z.to_nat W * Z.to_nat K).
Proof.
  unfold oiio.serialise.
  rewrite (length_flat_map_uniform _ (Z.to_nat W * Z.to_nat K)).
  - now rewrite length_zrange, Z.sub_0_r.
  - intros y. rewrite (length_flat_map_uniform _ (Z.to_nat K)).
    + now rewrite length_zrange, Z.sub_0_r.
    + intros x. now rewrite length_map, length_zrange, Z.sub_0_r.
Qed.

Lemma nth_serialise (W H K : Z) (f : Z -> Z -> Z -> sample) (d : sample) (x y c : Z) :
  (0 <= x < W)%Z -> (0 <= y < H)%Z -> (0 <= c < K)%Z ->
  nth (Z.to_nat ((y * W + x) * K + c)) (oiio.serialise W H K f) d = f x y c.
Proof.
  intros Hx Hy Hc. unfold oiio.serialise.
  replace (Z.to_nat ((y * W + x) * K + c))
    with (Z.to_nat y * (Z.to_nat W * Z.to_nat K) + (Z.to_nat x * Z.to_nat K + Z.to_nat c))
    by nia.
  rewrite (nth_flat_map_uniform _ (Z.to_nat W * Z.to_nat K) d 0%Z).
  - rewrite (nth_flat_map_uniform _ (Z.to_nat K) d 0%Z).
    + set (g := fun c0 : Z => f _ _ c0).
      rewrite (nth_indep _ d (g 0%Z)) by (rewrite length_map, length_zrange; lia).
      rewrite map_nth. unfold g.
      rewrite !nth_zrange by lia.
      f_equal; lia.
    + intros a. now rewrite length_map, length_zrange, Z.sub_0_r.
    + rewrite length_zrange. lia.
    + lia.
  - intros a. rewrite (length_flat_map_uniform _ (Z.to_nat K)).
    + now rewrite length_zrange, Z.sub_0_r.
    + intros b. now rewrite length_map, length_zrange, Z.sub_0_r.
  - rewrite length_zrange. lia.
  - nia.
Qed.

Lemma serialise_ext (W H K : Z) (f g : Z -> Z -> Z -> sample) :
  (forall x y c, (0 <= x < W)%Z -> (0 <= y < H)%Z -> (0 <= c < K)%Z -> f x y c = g x y c) ->
  oiio.serialise W H K f = oiio.serialise W H K g.
Proof.
  intros Hfg. unfold oiio.serialise.
  apply flat_map_ext_on; intros y Hy%in_zrange.
  apply flat_map_ext_on; intros x Hx%in_zrange.
  apply map_ext_in; intros c Hc%in_zrange.
  now apply Hfg.
Qed.

End Serialise.

Lemma to_nat_mul3 (W H N : Z) :
  (0 <= W)%Z -> (0 <= H)%Z -> (0 <= N)%Z ->
  Z.to_nat (W * H * N) = Z.to_nat H * (Z.to_nat W * Z.to_nat N).
Proof. intros. nia. Qed.

Lemma index_bound (W H N x y c : Z) :
  (0 <= x < W)%Z -> (0 <= y < H)%Z -> (0 <= c < N)%Z ->
  Z.to_nat ((y * W + x) * N + c) < Z.to_nat (W * H * N).
Proof.
  intros Hx Hy Hc.
  assert (y * W + x + 1 <= W * H)%Z by nia.
  assert ((y * W + x + 1) * N <= W * H * N)%Z by (apply Z.mul_le_mono_nonneg_r; lia).
  assert (0 <= y * W)%Z by (apply Z.mul_nonneg_nonneg; lia).
  assert (0 <= (y * W + x) * N)%Z by (apply Z.mul_nonneg_nonneg; lia).
  lia.
Qed.

(** Every position of the layout is the position of one pixel component. *)
Lemma index_decompose (W H N : Z) (i : nat) :
  (0 <= W)%Z -> (0 <= H)%Z -> (0 <= N)%Z -> i < Z.to_nat (W * H * N) ->
  exists x y c : Z,
    (0 <= x < W)%Z /\ (0 <= y < H)%Z /\ (0 <= c < N)%Z
    /\ i = Z.to_nat ((y * W + x) * N + c).
Proof.
  intros HW HH HN Hi.
  assert (0 < N)%Z by nia. assert (0 < W)%Z by nia.
  set (p := (Z.of_nat i / N)%Z).
  exists (p mod W)%Z, (p / W)%Z, (Z.of_nat i mod N)%Z.
  pose proof (Z.div_mod (Z.of_nat i) N ltac:(lia)) as E1.
  pose proof (Z.mod_pos_bound (Z.of_nat i) N ltac:(lia)) as B1.
  pose proof (Z.div_mod p W ltac:(lia)) as E2.
  pose proof (Z.mod_pos_bound p W ltac:(lia)) as B2.
  assert (0 <= p)%Z by (apply Z.div_pos; lia).
  assert (0 <= p / W)%Z by (apply Z.div_pos; lia).
  fold p in E1.
  assert (p < W * H)%Z by nia.
  assert (p / W < H)%Z by (apply Z.div_lt_upper_bound; lia).
  repeat split; lia.
Qed.

Section Wrap.
Context {sample : Type} {smp : oiio.Samples sample}.

(** Reading a wrapped buffer back in row-major order gives the components
    the buffer holds for the image. *)
Lemma serialise_wrap (W H N : Z) (data : list sample) :
  (0 <= W)%Z -> (0 <= H)%Z -> (0 <= N)%Z -> Z.to_nat (W * H * N) <= length data ->
  oiio.serialise W H N (fun x y c => nth (Z.to_nat ((y * W + x) * N + c)) data oiio.zero)
  = firstn (Z.to_nat (W * H * N)) data.
Proof.
  intros HW HH HN Hlen.
  apply (nth_ext _ _ oiio.zero oiio.zero).
  - rewrite length_serialise, length_firstn, to_nat_mul3 by lia.
    rewrite to_nat_mul3 in Hlen by lia. lia.
  - intros i Hi. rewrite length_serialise, <- to_nat_mul3 in Hi by lia.
    destruct (index_decompose W H N i HW HH HN Hi) as (x & y & c & Hx & Hy & Hc & ->).
    rewrite nth_serialise by assumption.
    rewrite nth_firstn.
    destruct (Nat.ltb_spec (Z.to_nat ((y * W + x) * N + c)) (Z.to_nat (W * H * N)));
      [reflexivity | lia].
Qed.

End Wrap.

Section GetPixels.
Context {sample : Type} {smp : oiio.Samples sample}.

Lemma convert_same (t : oiio.TypeDesc) (v : sample) : oiio.convert t t v = v.
Proof. unfold oiio.convert. destruct (decide (t = t)); congruence. Qed.

Lemma in_window_true (s : oiio.ImageSpec) (x y c : Z) :
  (0 <= x < oiio.width s)%Z -> (0 <= y < oiio.height s)%Z ->
  (0 <= c < oiio.nchannels s)%Z -> oiio.in_window s x y c = true.
Proof.
  intros Hx Hy Hc. unfold oiio.in_window.
  repeat (apply andb_true_iff; split); lia.
Qed.

Lemma getchannel_in (b : oiio.ImageBuf sample) (x y c : Z) :
  oiio.initialized b = true ->
  (0 <= x < oiio.width (oiio.spec b))%Z -> (0 <= y < oiio.height (oiio.spec b))%Z ->
  (0 <= c < oiio.nchannels (oiio.spec b))%Z ->
  oiio.getchannel b x y c = oiio.pixel b x y c.
Proof.
  intros Hi Hx Hy Hc. unfold oiio.getchannel.
  now rewrite Hi, in_window_true.
Qed.

(** [get_pixels] over the whole image, and over its first [k] channels, in
    terms of the layout. *)
Lemma get_pixels_All (b : oiio.ImageBuf sample) (fmt : oiio.TypeDesc) :
  oiio.get_pixels b oiio.All fmt
  = oiio.serialise (oiio.width (oiio.spec b)) (oiio.height (oiio.spec b))
              (oiio.nchannels (oiio.spec b))
              (fun x y c => oiio.convert (oiio.format (oiio.spec b)) fmt
                                         (oiio.getchannel b x y c)).
Proof.
  unfold oiio.get_pixels, oiio.serialise.
  change (oiio.defined oiio.All) with false. cbv iota zeta.
  unfold oiio.roi, oiio.get_roi; simpl.
  now rewrite Z.min_id.
Qed.

Lemma get_pixels_channels (b : oiio.ImageBuf sample) (k : Z) (fmt : oiio.TypeDesc) :
  (k <= oiio.nchannels (oiio.spec b))%Z ->
  oiio.get_pixels b (oiio.set_chend k (oiio.set_chbegin 0 (oiio.roi b))) fmt
  = oiio.serialise (oiio.width (oiio.spec b)) (oiio.height (oiio.spec b)) k
              (fun x y c => oiio.convert (oiio.format (oiio.spec b)) fmt
                                         (oiio.getchannel b x y c)).
Proof.
  intros Hk. unfold oiio.get_pixels, oiio.serialise.
  change (oiio.defined (oiio.set_chend k (oiio.set_chbegin 0 (oiio.roi b)))) with true.
  cbv iota zeta. unfold oiio.roi, oiio.get_roi; simpl.
  now rewrite Z.min_l by exact Hk.
Qed.

(** Writing through [data()] what fits replaces a prefix and keeps the
    length. *)
Lemma store_fits (vals v : list sample) :
  length vals <= length v -> imageIO.store vals v = vals ++ skipn (length vals) v.
Proof. intros Hl. unfold imageIO.store. now rewrite firstn_all2. Qed.

Lemma length_store (vals v : list sample) : length (imageIO.store vals v) = length v.
Proof.
  unfold imageIO.store. rewrite length_app, length_firstn, length_skipn. lia.
Qed.

(** The buffer after [transposeImage]: the rows of the [h] x [w] transpose,
    followed by what the buffer held beyond the image. *)
Lemma transposeImage_eq (T : imageIO.ElemType) (td : oiio.TypeDesc) (w h n : Z)
  (data : list sample) :
  (0 <= w)%Z -> (0 <= h)%Z -> (0 <= n)%Z -> Z.to_nat (w * h * n) <= length data ->
  imageIO.transposeImage T td w h n data
  = oiio.serialise h w n (fun x y c => nth (Z.to_nat ((x * w + y) * n + c)) data oiio.zero)
    ++ skipn (Z.to_nat (w * h * n)) data.
Proof.
  intros Hw Hh Hn Hlen. unfold imageIO.transposeImage; cbv zeta.
  rewrite get_pixels_All.
  unfold oiio.transpose. change (oiio.defined oiio.All) with false. cbv iota zeta.
  unfold oiio.roi, oiio.get_roi, oiio.ImageBuf_wrap, oiio.ImageSpec_new; simpl.
  rewrite !Z.sub_0_r.
  erewrite serialise_ext.
  - rewrite store_fits; rewrite length_serialise.
    + f_equal. f_equal. rewrite to_nat_mul3 by lia. lia.
    + rewrite to_nat_mul3 in Hlen by lia. lia.
  - intros x y c Hx Hy Hc. simpl.
    rewrite convert_same.
    rewrite getchannel_in by (simpl; lia || reflexivity). simpl.
    rewrite getchannel_in by (simpl; lia || reflexivity). simpl.
    rewrite !Z.add_0_l. reflexivity.
Qed.

End GetPixels.

Section Transpose.
Context {sample : Type} {smp : oiio.Samples sample}.

Lemma length_transposeImage (T : imageIO.ElemType) (td : oiio.TypeDesc) (w h n : Z)
  (data : list sample) :
  length (imageIO.transposeImage T td w h n data) = length data.
Proof. unfold imageIO.transposeImage. apply length_store. Qed.

(** Transposing back with the exchanged dimensions restores the buffer. *)
Lemma transposeImage_swapped (T : imageIO.ElemType) (td : oiio.TypeDesc) (w h n : Z)
  (data : list sample) :
  (0 <= w)%Z -> (0 <= h)%Z -> (0 <= n)%Z -> Z.to_nat (w * h * n) <= length data ->
  imageIO.transposeImage T td h w n (imageIO.transposeImage T td w h n data) = data.
Proof.
  intros Hw Hh Hn Hlen.
  assert (Hwh : Z.to_nat (h * w * n) = Z.to_nat (w * h * n)) by (f_equal; lia).
  rewrite (transposeImage_eq T td h w n)
    by (try rewrite length_transposeImage; lia).
  rewrite (transposeImage_eq T td w h n data) by assumption.
  set (ser := oiio.serialise h w n _).
  assert (Hser : length ser = Z.to_nat (w * h * n)).
  { unfold ser. rewrite length_serialise, <- to_nat_mul3 by lia. lia. }
  rewrite Hwh, <- Hser at 1.
  rewrite skipn_app, skipn_all, Nat.sub_diag. simpl.
  transitivity (firstn (Z.to_nat (w * h * n)) data ++ skipn (Z.to_nat (w * h * n)) data);
    [|apply firstn_skipn].
  f_equal.
  rewrite <- serialise_wrap by assumption.
  apply serialise_ext. intros x y c Hx Hy Hc.
  rewrite app_nth1
    by (rewrite Hser, <- Hwh; apply index_bound; assumption).
  unfold ser. now rewrite nth_serialise by lia.
Qed.

(** The buffer of an image of one column, or of one row, is its own
    transpose. *)
Lemma transposeImage_column (T : imageIO.ElemType) (td : oiio.TypeDesc) (h n : Z)
  (data : list sample) :
  (0 <= h)%Z -> (0 <= n)%Z -> Z.to_nat (1 * h * n) <= length data ->
  imageIO.transposeImage T td 1 h n data = data.
Proof.
  intros Hh Hn Hlen.
  rewrite transposeImage_eq by (assumption || lia).
  transitivity (firstn (Z.to_nat (1 * h * n)) data ++ skipn (Z.to_nat (1 * h * n)) data);
    [|apply firstn_skipn].
  f_equal.
  replace (1 * h * n)%Z with (h * 1 * n)%Z in * by lia.
  rewrite <- serialise_wrap by (assumption || lia).
  apply serialise_ext. intros x y c Hx Hy Hc.
  do 2 f_equal. nia.
Qed.

Lemma transposeImage_row (T : imageIO.ElemType) (td : oiio.TypeDesc) (w n : Z)
  (data : list sample) :
  (0 <= w)%Z -> (0 <= n)%Z -> Z.to_nat (w * 1 * n) <= length data ->
  imageIO.transposeImage T td w 1 n data = data.
Proof.
  intros Hw Hn Hlen.
  rewrite transposeImage_eq by (assumption || lia).
  transitivity (firstn (Z.to_nat (w * 1 * n)) data ++ skipn (Z.to_nat (w * 1 * n)) data);
    [|apply firstn_skipn].
  f_equal.
  replace (w * 1 * n)%Z with (1 * w * n)%Z in * by lia.
  rewrite <- serialise_wrap by (assumption || lia).
  apply serialise_ext. intros x y c Hx Hy Hc.
  do 2 f_equal. nia.
Qed.

(** C1 (as amended).  On a buffer that holds the image (at least
    [width * height * nchannels] components), [transposeImage] with
    [width], [height] followed by [transposeImage] with the two exchanged
    restores the buffer exactly; with the same [width] and [height] on both
    calls it does so when [width = height] or one of the two is 1. *)
Theorem transposeImage_twice_restores_swapped_or_square
  (T : imageIO.ElemType) (typeDesc : oiio.TypeDesc) (width height nchannels : Z)
  (buffer : list sample) :
  (0 <= width)%Z -> (0 <= height)%Z -> (0 <= nchannels)%Z ->
  Z.to_nat (width * height * nchannels) <= length buffer ->
  imageIO.transposeImage T typeDesc height width nchannels
    (imageIO.transposeImage T typeDesc width height nchannels buffer) = buffer
  /\ (width = height \/ width = 1%Z \/ height = 1%Z ->
      imageIO.transposeImage T typeDesc width height nchannels
        (imageIO.transposeImage T typeDesc width height nchannels buffer) = buffer).
Proof.
  intros Hw Hh Hn Hlen. split.
  - now apply transposeImage_swapped.
  - intros [->|[->| ->]].
    + now apply transposeImage_swapped.
    + rewrite (transposeImage_column _ _ _ _ buffer) by assumption.
      now apply transposeImage_column.
    + rewrite (transposeImage_row _ _ _ _ buffer) by assumption.
      now apply transposeImage_row.
Qed.

End Transpose.


Section ReadPixels.
Context {sample cfloat : Type}.
Context {smp : oiio.Samples sample} {alg : oiio.Algorithms sample cfloat}
        {fls : oiio.Files sample}.

Lemma length_vector_resize (T : imageIO.ElemType) (n : Z) (v : list sample) :
  length (imageIO.vector_resize T n v) = Z.to_nat n * imageIO.components T.
Proof.
  unfold imageIO.vector_resize; cbv zeta.
  rewrite length_app, length_firstn, repeat_length. lia.
Qed.

Lemma components_pos (T : imageIO.ElemType) : 1 <= imageIO.components T.
Proof. destruct T; simpl; lia. Qed.

(** The buffer [readImage] builds when it adds channels to a source of
    fewer than three: the three [paste] calls, then [copy]. *)
Lemma paste_three_times (src : oiio.ImageBuf sample) (rs : oiio.ImageSpec) :
  oiio.initialized src = true ->
  oiio.copy src
    (oiio.paste
       (oiio.paste (oiio.paste (oiio.ImageBuf_alloc rs) 0 0 0 0 src) 0 0 0 1 src)
       0 0 0 2 src)
  = oiio.mkImageBuf true rs
      (fun x y c =>
         let put k :=
           oiio.convert (oiio.format (oiio.spec src)) (oiio.format rs)
                        (oiio.pixel src (x - 0) (y - 0) (c - k)) in
         if oiio.in_window (oiio.spec src) (x - 0) (y - 0) (c - 2) then put 2%Z
         else if oiio.in_window (oiio.spec src) (x - 0) (y - 0) (c - 1) then put 1%Z
         else if oiio.in_window (oiio.spec src) (x - 0) (y - 0) (c - 0) then put 0%Z
         else oiio.zero).
Proof.
  intros Hinit. unfold oiio.paste, oiio.copy, oiio.ImageBuf_alloc; simpl.
  rewrite Hinit; simpl. reflexivity.
Qed.

(** C3.  On a source with one channel that opens (and whose number of
    components, three per pixel, is a count), [readImage] with three
    requested channels (the overloads for [rgb] and [Color] are the
    instances [typeDesc = UCHAR] and [typeDesc = FLOAT]) returns, reports the
    source's width and height, and leaves in the buffer, at every pixel and
    for each of the channels 0, 1 and 2, the value of the source's single
    channel at that pixel as the library delivers it in the requested
    element format. *)
Theorem readImage_gray_source_rgb_request_replicates
  (T : imageIO.ElemType) (path : string) (typeDesc : oiio.TypeDesc)
  (st : imageIO.Refs sample) :
  imageIO.source_opens path ->
  imageIO.source_nchannels path = 1%Z ->
  let src := oiio.open_file path imageIO.configSpec in
  imageIO.count_ok (oiio.width (oiio.spec src)) (oiio.height (oiio.spec src)) 3 ->
  let r := imageIO.readImage T path typeDesc 3 st in
  fst r = imageIO.Returned tt
  /\ imageIO.width (snd r) = oiio.width (oiio.spec src)
  /\ imageIO.height (snd r) = oiio.height (oiio.spec src)
  /\ forall x y c : Z,
      (0 <= x < oiio.width (oiio.spec src))%Z ->
      (0 <= y < oiio.height (oiio.spec src))%Z ->
      (0 <= c < 3)%Z ->
      nth (Z.to_nat ((y * oiio.width (oiio.spec src) + x) * 3 + c))
          (imageIO.buffer (snd r)) oiio.zero
      = oiio.convert (oiio.format (oiio.spec src)) typeDesc (oiio.pixel src x y 0).
Proof.
  unfold imageIO.source_opens, imageIO.source_nchannels. intros Hinit Hn _.
  unfold imageIO.readImage. cbv zeta.
  set (src := oiio.open_file path imageIO.configSpec) in *.
  rewrite Hinit, Hn.
  change ((3 =? 1) || (3 >=? 3))%Z with true.
  change (negb true) with false.
  change (negb (1 =? 1)%Z && (1 <? 3)%Z) with false.
  change ((3 =? 1)%Z && (1 >=? 3)%Z) with false.
  cbv iota. rewrite Hn.
  change (3 >? 1)%Z with true. cbv iota.
  change (oiio.nchannels (oiio.ImageSpec_new _ _ 3 typeDesc)) with 3%Z.
  change ((3 >=? 3)%Z && (1 <? 3)%Z) with true. cbv iota.
  rewrite paste_three_times by exact Hinit.
  unfold mbind, imageIO.M_bind, imageIO.assert, imageIO.set_width, imageIO.set_height,
    imageIO.update_buffer, imageIO.modify. simpl.
  do 3 (split; [reflexivity|]).
  intros x y c Hx Hy Hc.
  set (W := oiio.width (oiio.spec src)) in *.
  set (Ht := oiio.height (oiio.spec src)) in *.
  rewrite (get_pixels_channels _ 3) by (simpl; lia). simpl.
  rewrite store_fits.
  - rewrite app_nth1
      by (rewrite length_serialise, <- to_nat_mul3 by lia; apply index_bound; lia).
    rewrite nth_serialise by lia.
    rewrite convert_same.
    rewrite getchannel_in by (simpl; lia || reflexivity). simpl.
    rewrite !Z.sub_0_r.
    assert (Hc3 : c = 0%Z \/ c = 1%Z \/ c = 2%Z) by lia.
    destruct Hc3 as [->|[->| ->]];
      unfold oiio.in_window; fold W Ht; rewrite Hn; simpl Z.sub;
      repeat match goal with
             | |- context [(?a <=? ?b)%Z] => destruct (Z.leb_spec a b); try lia
             | |- context [(?a <? ?b)%Z] => destruct (Z.ltb_spec a b); try lia
             end; reflexivity.
  - rewrite length_serialise, length_vector_resize.
    pose proof (components_pos T).
    rewrite to_nat_mul3 by lia. nia.
Qed.


End ReadPixels.

Section Sizes.
Context {sample cfloat : Type}.
Context {smp : oiio.Samples sample} {alg : oiio.Algorithms sample cfloat}
        {fls : oiio.Files sample}.

(** [resize(n)] leaves [n] elements, and writing through [data()] keeps
    the size. *)
Lemma vector_size_resize (T : imageIO.ElemType) (n : Z) (v : list sample) :
  imageIO.vector_size T (imageIO.vector_resize T n v) = Z.to_nat n.
Proof.
  unfold imageIO.vector_size. rewrite length_vector_resize.
  apply Nat.div_mul. pose proof (components_pos T). lia.
Qed.

Lemma vector_size_store (T : imageIO.ElemType) (vals v : list sample) :
  imageIO.vector_size T (imageIO.store vals v) = imageIO.vector_size T v.
Proof. unfold imageIO.vector_size. now rewrite length_store. Qed.

Lemma resizeImage_size (T : imageIO.ElemType) (td : oiio.TypeDesc)
  (inWidth inHeight nchannels downscale : Z) (inBuffer outBuffer : list sample)
  (filter : string) (filterSize : cfloat) :
  imageIO.vector_size T
    (imageIO.resizeImage T td inWidth inHeight nchannels downscale inBuffer outBuffer
                         filter filterSize)
  = Z.to_nat (imageIO.outWidth inWidth downscale * imageIO.outHeight inHeight downscale).
Proof.
  unfold imageIO.resizeImage; cbv zeta.
  now rewrite vector_size_store, vector_size_resize.
Qed.

Lemma convolveImage_size (T : imageIO.ElemType) (td : oiio.TypeDesc)
  (inWidth inHeight nchannels : Z) (inBuffer outBuffer : list sample)
  (kernel : string) (kernelWidth kernelHeight : cfloat) :
  imageIO.vector_size T
    (imageIO.convolveImage T td inWidth inHeight nchannels inBuffer outBuffer
                           kernel kernelWidth kernelHeight)
  = imageIO.vector_size T inBuffer.
Proof.
  unfold imageIO.convolveImage; cbv zeta.
  rewrite vector_size_store, vector_size_resize. apply Nat2Z.id.
Qed.

(** The references after a call of [readImage] that returns, in terms of
    the buffer [inBuf] it exports. *)
Lemma readImage_returned (T : imageIO.ElemType) (path : string)
  (typeDesc : oiio.TypeDesc) (nchannels : Z) (st : imageIO.Refs sample) :
  fst (imageIO.readImage T path typeDesc nchannels st) = imageIO.Returned tt ->
  exists inBuf : oiio.ImageBuf sample,
    snd (imageIO.readImage T path typeDesc nchannels st)
    = imageIO.mkRefs
        (oiio.width (oiio.spec inBuf)) (oiio.height (oiio.spec inBuf))
        (imageIO.store
           (oiio.get_pixels inBuf
              (oiio.set_chend nchannels (oiio.set_chbegin 0 (oiio.roi inBuf))) typeDesc)
           (imageIO.vector_resize T
              (oiio.width (oiio.spec inBuf) * oiio.height (oiio.spec inBuf) * nchannels)
              (imageIO.buffer st))).
Proof.
  unfold imageIO.readImage; cbv zeta.
  unfold mbind, imageIO.M_bind, imageIO.assert, imageIO.throw.
  destruct ((nchannels =? 1) || (nchannels >=? 3))%Z; [|discriminate].
  destruct (oiio.initialized (oiio.open_file path imageIO.configSpec));
    simpl negb; cbv iota; [|discriminate].
  destruct (negb _ && _); [discriminate|].
  intros _. eexists. reflexivity.
Qed.

(** The exact size [readImage] gives its buffer: the [int] product it
    passes to [resize], in elements of the buffer's type. *)
Lemma readImage_buffer_size (T : imageIO.ElemType) (path : string)
  (typeDesc : oiio.TypeDesc) (nchannels : Z) (st : imageIO.Refs sample) :
  let r := imageIO.readImage T path typeDesc nchannels st in
  fst r = imageIO.Returned tt ->
  imageIO.vector_size T (imageIO.buffer (snd r))
  = Z.to_nat (imageIO.width (snd r) * imageIO.height (snd r) * nchannels).
Proof.
  intros r Hr. subst r.
  destruct (readImage_returned T path typeDesc nchannels st Hr) as [inBuf ->].
  simpl. now rewrite vector_size_store, vector_size_resize.
Qed.


(** C5.  For positive [inWidth], [inHeight] and [downscale], the output of
    [resizeImage] is [floor(inWidth/downscale)] wide and
    [floor(inHeight/downscale)] high: these are [outWidth] and [outHeight];
    where their product is a count, [outBuffer] holds that many elements
    and, when the element type holds the [nchannels] channels of a pixel,
    [outBuffer] is exactly the rows of an image of these dimensions.  With
    [downscale = 1] the dimensions are the input's. *)
Theorem resizeImage_output_dimensions
  (T : imageIO.ElemType) (typeDesc : oiio.TypeDesc)
  (inWidth inHeight nchannels downscale : Z) (inBuffer outBuffer : list sample)
  (filter : string) (filterSize : cfloat) :
  (0 < inWidth)%Z -> (0 < inHeight)%Z -> (0 < downscale)%Z ->
  let out := imageIO.resizeImage T typeDesc inWidth inHeight nchannels downscale
                                 inBuffer outBuffer filter filterSize in
  imageIO.outWidth inWidth downscale = (inWidth / downscale)%Z
  /\ imageIO.outHeight inHeight downscale = (inHeight / downscale)%Z
  /\ (std.is_count ((inWidth / downscale) * (inHeight / downscale)) ->
      imageIO.vector_size T out
      = Z.to_nat ((inWidth / downscale) * (inHeight / downscale)))
  /\ (std.is_count ((inWidth / downscale) * (inHeight / downscale)) ->
      Z.of_nat (imageIO.components T) = nchannels ->
      out = oiio.serialise (inWidth / downscale) (inHeight / downscale) nchannels
              (oiio.resize_sample
                 (oiio.ImageSpec_new (inWidth / downscale) (inHeight / downscale)
                                     nchannels typeDesc)
                 (oiio.ImageBuf_wrap
                    (oiio.ImageSpec_new inWidth inHeight nchannels typeDesc) inBuffer)
                 filter filterSize))
  /\ (downscale = 1%Z ->
      imageIO.outWidth inWidth downscale = inWidth
      /\ imageIO.outHeight inHeight downscale = inHeight).
Proof.
  intros Hw Hh Hd out.
  assert (Ew : imageIO.outWidth inWidth downscale = (inWidth / downscale)%Z)
    by (apply Z.quot_div_nonneg; lia).
  assert (Eh : imageIO.outHeight inHeight downscale = (inHeight / downscale)%Z)
    by (apply Z.quot_div_nonneg; lia).
  split; [exact Ew|]. split; [exact Eh|]. split; [|split].
  - intros _. subst out. now rewrite resizeImage_size, Ew, Eh.
  - intros _ Hn. subst out. unfold imageIO.resizeImage; cbv zeta.
    rewrite Ew, Eh.
    set (ow := (inWidth / downscale)%Z). set (oh := (inHeight / downscale)%Z).
    assert (0 <= ow)%Z by (apply Z.div_pos; lia).
    assert (0 <= oh)%Z by (apply Z.div_pos; lia).
    rewrite get_pixels_All. unfold oiio.resize; simpl.
    rewrite store_fits; rewrite length_serialise, ?length_vector_resize.
    + rewrite skipn_all2
        by (rewrite length_vector_resize; nia).
      rewrite app_nil_r.
      apply serialise_ext. intros x y c Hx Hy Hc.
      rewrite convert_same.
      now rewrite getchannel_in by (simpl; lia || reflexivity).
    + nia.
  - intros ->. rewrite Ew, Eh, !Z.div_1_r. split; reflexivity.
Qed.

End Sizes.

Section Gray.
Context {sample cfloat : Type}.
Context {smp : oiio.Samples sample} {alg : oiio.Algorithms sample cfloat}
        {fls : oiio.Files sample}.

(** The three luminance weights, read as the decimal numbers the source
    writes, add up to exactly one. *)
Lemma weights_sum_to_one : Qeq (fold_right Qplus 0%Q imageIO.weights) 1%Q.
Proof. reflexivity. Qed.

(** A call of [readImage] that takes the grayscale reduction: it returns,
    reports the source's width and height, and each component of the buffer
    is the library's weighted sum of the source pixel's channels 0, 1 and
    2, converted to the requested element format. *)
Lemma readImage_gray_reduction_pixels
  (T : imageIO.ElemType) (path : string) (typeDesc : oiio.TypeDesc)
  (st : imageIO.Refs sample) :
  imageIO.source_opens path ->
  (imageIO.source_nchannels path >= 3)%Z ->
  let src := oiio.open_file path imageIO.configSpec in
  let r := imageIO.readImage T path typeDesc 1 st in
  fst r = imageIO.Returned tt
  /\ imageIO.width (snd r) = oiio.width (oiio.spec src)
  /\ imageIO.height (snd r) = oiio.height (oiio.spec src)
  /\ forall x y : Z,
      (0 <= x < oiio.width (oiio.spec src))%Z ->
      (0 <= y < oiio.height (oiio.spec src))%Z ->
      nth (Z.to_nat (y * oiio.width (oiio.spec src) + x))
          (imageIO.buffer (snd r)) oiio.zero
      = oiio.convert (oiio.format (oiio.spec src)) typeDesc
          (oiio.weighted_sum (oiio.format (oiio.spec src)) imageIO.weights
             [oiio.pixel src x y 0; oiio.pixel src x y 1; oiio.pixel src x y 2]).
Proof.
  unfold imageIO.source_opens, imageIO.source_nchannels. intros Hinit Hn.
  unfold imageIO.readImage. cbv zeta.
  set (src := oiio.open_file path imageIO.configSpec) in *.
  rewrite Hinit.
  change ((1 =? 1) || (1 >=? 3))%Z with true.
  change (negb true) with false. cbv iota.
  replace (oiio.nchannels (oiio.spec src) =? 1)%Z with false by (symmetry; apply Z.eqb_neq; lia).
  replace (oiio.nchannels (oiio.spec src) <? 3)%Z with false by (symmetry; apply Z.ltb_ge; lia).
  replace (oiio.nchannels (oiio.spec src) >=? 3)%Z with true
    by (symmetry; rewrite Z.geb_leb; apply Z.leb_le; lia).
  simpl negb. simpl andb. cbv iota.
  unfold oiio.copy, oiio.channel_sum. simpl oiio.initialized. cbv iota zeta.
  simpl oiio.spec. simpl oiio.nchannels.
  change (1 >? 1)%Z with false. cbv iota.
  change (oiio.defined (oiio.set_chend 3 (oiio.set_chbegin 0 (oiio.roi src)))) with true.
  cbv iota.
  unfold mbind, imageIO.M_bind, imageIO.assert, imageIO.set_width, imageIO.set_height,
    imageIO.update_buffer, imageIO.modify. simpl.
  do 3 (split; [reflexivity|]).
  intros x y Hx Hy.
  set (W := oiio.width (oiio.spec src)) in *.
  set (Ht := oiio.height (oiio.spec src)) in *.
  rewrite (get_pixels_channels _ 1) by (simpl; lia). simpl.
  fold W Ht.
  replace (Z.to_nat (y * W + x)) with (Z.to_nat ((y * W + x) * 1 + 0)) by (f_equal; lia).
  rewrite store_fits.
  - rewrite app_nth1
      by (rewrite length_serialise, <- to_nat_mul3 by lia; apply index_bound; lia).
    rewrite nth_serialise by lia.
    rewrite getchannel_in by (simpl; lia || reflexivity). simpl.
    rewrite Z.min_l by lia.
    change (oiio.zrange 0 3) with [0; 1; 2]%Z. simpl map.
    rewrite !getchannel_in by (assumption || lia). reflexivity.
  - rewrite length_serialise, length_vector_resize.
    pose proof (components_pos T).
    rewrite to_nat_mul3 by lia. nia.
Qed.

(** X5.  On a source with three or more channels that opens, [readImage] with
    one requested channel returns, and leaves at every pixel the library's
    weighted sum of the source's channels 0, 1 and 2 (and of no other
    channel) under [weights], converted to the requested element format.
    What that sum is for three equal components is a matter of the
    library's [float] arithmetic, which the model leaves open. *)
Lemma readImage_rgb_source_gray_request_sums
  (T : imageIO.ElemType) (path : string) (typeDesc : oiio.TypeDesc)
  (st : imageIO.Refs sample) :
  imageIO.source_opens path ->
  (imageIO.source_nchannels path >= 3)%Z ->
  let src := oiio.open_file path imageIO.configSpec in
  imageIO.count_ok (oiio.width (oiio.spec src)) (oiio.height (oiio.spec src)) 1 ->
  let r := imageIO.readImage T path typeDesc 1 st in
  fst r = imageIO.Returned tt
  /\ imageIO.width (snd r) = oiio.width (oiio.spec src)
  /\ imageIO.height (snd r) = oiio.height (oiio.spec src)
  /\ forall x y : Z,
      (0 <= x < oiio.width (oiio.spec src))%Z ->
      (0 <= y < oiio.height (oiio.spec src))%Z ->
      nth (Z.to_nat (y * oiio.width (oiio.spec src) + x))
          (imageIO.buffer (snd r)) oiio.zero
      = oiio.convert (oiio.format (oiio.spec src)) typeDesc
          (oiio.weighted_sum (oiio.format (oiio.spec src)) imageIO.weights
             [oiio.pixel src x y 0; oiio.pixel src x y 1; oiio.pixel src x y 2]).
Proof.
  intros Hopen Hn src _ r.
  exact (readImage_gray_reduction_pixels T path typeDesc st Hopen Hn).
Qed.

End Gray.

Section GrayExact.
Context {conv : Exact.Conversion} {fls : oiio.Files Qc}.

Lemma weights_sum_to_one_Qc :
  (Q2Qc 0.2126 + Q2Qc 0.7152 + Q2Qc 0.0722 = 1)%Qc.
Proof. apply Qc_is_canon. reflexivity. Qed.

Lemma channel_sum_pixel_neutral (v : Qc) :
  Exact.channel_sum_pixel imageIO.weights [v; v; v] = v.
Proof.
  unfold imageIO.weights. simpl.
  transitivity ((Q2Qc 0.2126 + Q2Qc 0.7152 + Q2Qc 0.0722) * v)%Qc; [ring|].
  rewrite weights_sum_to_one_Qc. ring.
Qed.


End GrayExact.

(** ** Instances on the concrete library and files *)

(** C1, counterexample.  A 3 x 2 gray image with rows [1 2 3] and [4 5 6]:
    one call leaves the rows [1 4], [2 5], [3 6] of its transpose; a second
    call with the same [width = 3] and [height = 2] reads them as the rows
    [1 4 2] and [5 3 6] and does not restore the buffer. *)
Lemma transposeImage_twice_same_arguments_counterexample :
  imageIO.transposeImage_uchar 3 2 [1; 2; 3; 4; 5; 6]%Z = [1; 4; 2; 5; 3; 6]%Z
  /\ imageIO.transposeImage_uchar 3 2
       (imageIO.transposeImage_uchar 3 2 [1; 2; 3; 4; 5; 6]%Z)
     = [1; 5; 4; 3; 2; 6]%Z
  /\ imageIO.transposeImage_uchar 3 2
       (imageIO.transposeImage_uchar 3 2 [1; 2; 3; 4; 5; 6]%Z)
     <> [1; 2; 3; 4; 5; 6]%Z.
Proof.
  split; [vm_compute; reflexivity|].
  split; [vm_compute; reflexivity | vm_compute; discriminate].
Qed.

Lemma transposeImage_twice_restores_witness :
  imageIO.transposeImage imageIO.T_uchar oiio.UCHAR 2 3 1
    (imageIO.transposeImage imageIO.T_uchar oiio.UCHAR 3 2 1 [1; 2; 3; 4; 5; 6]%Z)
  = [1; 2; 3; 4; 5; 6]%Z
  /\ imageIO.transposeImage imageIO.T_rgb oiio.UCHAR 2 2 3
       (imageIO.transposeImage imageIO.T_rgb oiio.UCHAR 2 2 3
          [1; 2; 3; 4; 5; 6; 7; 8; 9; 10; 11; 12]%Z)
     = [1; 2; 3; 4; 5; 6; 7; 8; 9; 10; 11; 12]%Z.
Proof.
  assert (H32 : Z.to_nat (3 * 2 * 1) <= length [1; 2; 3; 4; 5; 6]%Z) by (simpl; lia).
  assert (H22 : Z.to_nat (2 * 2 * 3)
                <= length [1; 2; 3; 4; 5; 6; 7; 8; 9; 10; 11; 12]%Z) by (simpl; lia).
  split.
  - exact (proj1 (transposeImage_twice_restores_swapped_or_square
                    imageIO.T_uchar oiio.UCHAR 3 2 1 [1; 2; 3; 4; 5; 6]%Z
                    ltac:(lia) ltac:(lia) ltac:(lia) H32)).
  - exact (proj2 (transposeImage_twice_restores_swapped_or_square
                    imageIO.T_rgb oiio.UCHAR 2 2 3
                    [1; 2; 3; 4; 5; 6; 7; 8; 9; 10; 11; 12]%Z
                    ltac:(lia) ltac:(lia) ltac:(lia) H22)
                 (or_introl eq_refl)).
Defined.

Lemma readImage_unsupported_channels_witness :
  fst (imageIO.readImage_overload imageIO.T_rgb "ga.png" Concrete.refs0)
  = imageIO.Thrown (imageIO.UnsupportedChannelLayoutError "ga.png")
  /\ fst (imageIO.readImage_overload imageIO.T_uchar "rgb.png" Concrete.refs0)
     = imageIO.Returned tt.
Proof.
  assert (Hga : imageIO.source_nchannels "ga.png" <> 1%Z
                /\ (imageIO.source_nchannels "ga.png" < 3)%Z)
    by (vm_compute; split; [discriminate | reflexivity]).
  assert (Hrgb : imageIO.source_nchannels "rgb.png" = 1%Z
                 \/ (imageIO.source_nchannels "rgb.png" >= 3)%Z)
    by (right; vm_compute; discriminate).
  split.
  - exact (proj1 (readImage_unsupported_channels_iff_not_1_nor_ge_3
                    imageIO.T_rgb "ga.png" Concrete.refs0 eq_refl) Hga).
  - exact (proj2 (readImage_unsupported_channels_iff_not_1_nor_ge_3
                    imageIO.T_uchar "rgb.png" Concrete.refs0 eq_refl) Hrgb).
Defined.

Lemma readImage_gray_source_rgb_request_witness :
  nth 4 (imageIO.buffer (snd (imageIO.readImage_rgb "gray.png" Concrete.refs0))) 0%Z
  = 20%Z.
Proof.
  assert (Hcount : imageIO.count_ok 2 1 3)
    by (unfold imageIO.count_ok, std.is_count; repeat split; apply Z.leb_le; reflexivity).
  pose proof (readImage_gray_source_rgb_request_replicates
                imageIO.T_rgb "gray.png" oiio.UCHAR Concrete.refs0
                eq_refl eq_refl Hcount) as Hrep.
  cbv zeta in Hrep. destruct Hrep as (_ & _ & _ & Hpix).
  exact (Hpix 1%Z 0%Z 1%Z ltac:(simpl; lia) ltac:(simpl; lia) ltac:(lia)).
Defined.

Lemma resizeImage_output_dimensions_witness :
  imageIO.outWidth 5 2 = 2%Z
  /\ imageIO.outHeight 3 2 = 1%Z
  /\ imageIO.vector_size imageIO.T_rgb
       (imageIO.resizeImage imageIO.T_rgb oiio.UCHAR 5 3 3 2
          (map Z.of_nat (seq 0 45)) [] "" 0%Q)
     = 2.
Proof.
  pose proof (resizeImage_output_dimensions
                imageIO.T_rgb oiio.UCHAR 5 3 3 2 (map Z.of_nat (seq 0 45)) []
                "" 0%Q ltac:(lia) ltac:(lia) ltac:(lia)) as Hdim.
  cbv zeta in Hdim. destruct Hdim as (Hw & Hh & Hsize & _).
  split; [exact Hw|]. split; [exact Hh|].
  apply Hsize. unfold std.is_count. split; apply Z.leb_le; reflexivity.
Defined.



Lemma readImage_throw_leaves_refs_witness :
  snd (imageIO.readImage imageIO.T_uchar "missing.png" oiio.UCHAR 1 Concrete.refs0)
  = Concrete.refs0
  /\ snd (imageIO.readImage imageIO.T_Color "ga.png" oiio.FLOAT 3 Concrete.refs0)
     = Concrete.refs0.
Proof.
  split.
  - exact (proj1 (readImage_throw_leaves_refs_unchanged
                    imageIO.T_uchar "missing.png" oiio.UCHAR 1 Concrete.refs0
                    (imageIO.FileOpenError "missing.png") eq_refl)).
  - exact (proj1 (readImage_throw_leaves_refs_unchanged
                    imageIO.T_Color "ga.png" oiio.FLOAT 3 Concrete.refs0
                    (imageIO.UnsupportedChannelLayoutError "ga.png") eq_refl)).
Defined.


Lemma writeImage_long_exr_path_witness :
  exists (outBuf : oiio.ImageBuf Z) (ok : bool),
    snd (imageIO.writeImage imageIO.T_float "a.exr" oiio.FLOAT 1 1 1 [5]%Z [])
    = [imageIO.mkWriteCall outBuf "a.exr" ok]
    /\ oiio.format (oiio.spec outBuf) = oiio.HALF
    /\ oiio.extra_attribs (oiio.spec outBuf) !! "compression"
       = Some (oiio.AttrStr "piz").
Proof.
  destruct (@writeImage_long_exr_path_half_piz_else_444_q100_none
              Z Concrete.samples Concrete.files
              imageIO.T_float "a.exr" oiio.FLOAT 1%Z 1%Z 1%Z [5]%Z [])
    as (outBuf & ok & Hrun & _ & _ & _ & _ & Hexr & _).
  assert (Hpath : 4 < String.length "a.exr"
                  /\ exists stem : string, "a.exr" = stem +:+ ".exr")
    by (split; [simpl; lia | exists "a"; reflexivity]).
  destruct (Hexr Hpath) as [Hfmt Hattr].
  exists outBuf, ok.
  split; [rewrite Hrun; reflexivity|].
  split; [exact Hfmt|].
  rewrite Hattr. reflexivity.
Defined.

(** C6, counterexample.  The path [.exr] ends in the EXR extension, and
    [writeImage] takes the other branch for it: the buffer written keeps
    the caller's element format [FLOAT], not [HALF], and asks for no
    compression. *)
Lemma writeImage_dot_exr_path_counterexample :
  (exists stem : string, ".exr" = stem +:+ ".exr")
  /\ exists (outBuf : oiio.ImageBuf Z) (ok : bool),
      snd (imageIO.writeImage_float ".exr" 1 1 [5]%Z [])
      = [imageIO.mkWriteCall outBuf ".exr" ok]
      /\ oiio.format (oiio.spec outBuf) = oiio.FLOAT
      /\ oiio.format (oiio.spec outBuf) <> oiio.HALF
      /\ oiio.extra_attribs (oiio.spec outBuf) !! "compression"
         = Some (oiio.AttrStr "none").
Proof.
  split; [exists ""; reflexivity|].
  eexists _, _. split; [vm_compute; reflexivity|].
  split; [reflexivity|]. split; [discriminate | reflexivity].
Qed.


(** * Further properties of the bridge *)

Section SpecFacts.
Context {inp : oiio.Inputs}.

(** X1.  [readImageSpec] on a path that does not open throws
    [FileOpenError] and leaves the caller's [width], [height] and
    [nchannels] as they were; on a path that opens it returns with the
    three set to the spec's.  Either way no [ImageInput] is left open. *)
Theorem readImageSpec_reports_or_throws_and_closes (path : string)
  (st : imageIO.SpecRefs) :
  (oiio.ImageInput_open path = None ->
   imageIO.readImageSpec path st = (imageIO.Thrown (imageIO.FileOpenError path), st))
  /\ (forall i : oiio.ImageInput,
        oiio.ImageInput_open path = Some i ->
        imageIO.readImageSpec path st
        = (imageIO.Returned tt,
           imageIO.mkSpecRefs (oiio.width (oiio.input_spec i))
                              (oiio.height (oiio.input_spec i))
                              (oiio.nchannels (oiio.input_spec i))
                              (imageIO.open_inputs st))).
Proof.
  unfold imageIO.readImageSpec, imageIO.open_input, mbind, imageIO.M_bind.
  split.
  - intros ->. reflexivity.
  - intros i ->. reflexivity.
Qed.

End SpecFacts.

Section ReadOutcomeMore.
Context {sample cfloat : Type}.
Context {smp : oiio.Samples sample} {alg : oiio.Algorithms sample cfloat}
        {fls : oiio.Files sample}.

(** The messages of the two errors of [readImage] differ, whatever the
    path. *)
Lemma open_and_channel_errors_differ (path : string) :
  imageIO.FileOpenError path <> imageIO.UnsupportedChannelLayoutError path.
Proof.
  unfold imageIO.FileOpenError, imageIO.UnsupportedChannelLayoutError.
  cbn. intros Heq. inversion Heq.
Qed.

(** X2.  The two errors of a public overload of [readImage] are decided by
    the source alone: [FileOpenError] exactly when it does not open,
    [UnsupportedChannelLayoutError] exactly when it opens with a channel
    count that is neither 1 nor at least 3; and the call returns only when
    the source opens with 1 or at least 3 channels. *)
Theorem readImage_overload_outcome_classification
  (T : imageIO.ElemType) (path : string) (st : imageIO.Refs sample) :
  let r := imageIO.readImage_overload T path st in
  let n := imageIO.source_nchannels path in
  (fst r = imageIO.Thrown (imageIO.FileOpenError path)
   <-> ~ imageIO.source_opens path)
  /\ (fst r = imageIO.Thrown (imageIO.UnsupportedChannelLayoutError path)
      <-> imageIO.source_opens path /\ n <> 1%Z /\ (n < 3)%Z)
  /\ (fst r = imageIO.Returned tt
      -> imageIO.source_opens path /\ (n = 1%Z \/ (n >= 3)%Z)).
Proof.
  intros r n. subst r n.
  assert (Hgen : exists typeDesc k,
             imageIO.readImage_overload T path st
             = imageIO.readImage T path typeDesc k st
             /\ ((k =? 1) || (k >=? 3))%Z = true).
  { destruct T; eexists _, _; (split; [reflexivity|reflexivity]). }
  destruct Hgen as (typeDesc & k & -> & Hk).
  pose proof (readImage_outcome T path typeDesc k st) as Hout.
  cbv zeta in Hout. rewrite Hk in Hout.
  pose proof (open_and_channel_errors_differ path) as Hne.
  unfold imageIO.source_opens, imageIO.source_nchannels in *.
  destruct (oiio.initialized (oiio.open_file path imageIO.configSpec)).
  - destruct (negb _ && _) eqn:Hc.
    + rewrite Hout; simpl.
      apply andb_true_iff in Hc. rewrite negb_true_iff, Z.eqb_neq, Z.ltb_lt in Hc.
      repeat split; try congruence; try tauto; intros; try lia.
      all: try (exfalso; intuition (congruence || lia)).
    + rewrite Hout.
      apply andb_false_iff in Hc. rewrite negb_false_iff, Z.eqb_eq, Z.ltb_ge in Hc.
      repeat split; try congruence; try tauto; intros; try lia.
      all: try (exfalso; intuition (congruence || lia)).
  - rewrite Hout; simpl.
    repeat split; try congruence; try tauto; intros; try lia.
    all: try (exfalso; intuition (congruence || lia)).
Qed.

End ReadOutcomeMore.

Section ReadWriteMore.
Context {sample cfloat : Type}.
Context {smp : oiio.Samples sample} {alg : oiio.Algorithms sample cfloat}
        {fls : oiio.Files sample}.

(** [paste] keeps the spec and the state of its destination; [copy] takes
    the spec of an initialized source. *)
Lemma paste_spec (dst src : oiio.ImageBuf sample) (xb yb zb chb : Z) :
  oiio.spec (oiio.paste dst xb yb zb chb src) = oiio.spec dst.
Proof. unfold oiio.paste. destruct (_ && _); reflexivity. Qed.

Lemma paste_initialized (dst src : oiio.ImageBuf sample) (xb yb zb chb : Z) :
  oiio.initialized (oiio.paste dst xb yb zb chb src) = oiio.initialized dst.
Proof.
  unfold oiio.paste. destruct (oiio.initialized dst) eqn:E; simpl; [|exact E].
  destruct (_ && _); simpl; [reflexivity | exact E].
Qed.

Lemma copy_spec (self src : oiio.ImageBuf sample) :
  oiio.initialized src = true -> oiio.spec (oiio.copy self src) = oiio.spec src.
Proof. intros Hi. unfold oiio.copy. now rewrite Hi. Qed.

(** X3.  Whenever [readImage] returns, on every path through the
    grayscale reduction and the channel expansion, the width and height it
    reports are the source's. *)
Theorem readImage_reports_source_dimensions
  (T : imageIO.ElemType) (path : string) (typeDesc : oiio.TypeDesc)
  (nchannels : Z) (st : imageIO.Refs sample) :
  let src := oiio.open_file path imageIO.configSpec in
  let r := imageIO.readImage T path typeDesc nchannels st in
  fst r = imageIO.Returned tt ->
  imageIO.width (snd r) = oiio.width (oiio.spec src)
  /\ imageIO.height (snd r) = oiio.height (oiio.spec src).
Proof.
  intros src r. subst r.
  unfold imageIO.readImage; cbv zeta. fold src.
  unfold mbind, imageIO.M_bind, imageIO.assert, imageIO.throw.
  destruct ((nchannels =? 1) || (nchannels >=? 3))%Z; [|discriminate].
  destruct (oiio.initialized src) eqn:Hinit;
    [change (negb true) with false | change (negb false) with true];
    cbv iota; [|discriminate].
  destruct (negb _ && _); [discriminate|].
  intros _.
  unfold imageIO.set_width, imageIO.set_height, imageIO.update_buffer, imageIO.modify.
  cbn [fst snd imageIO.width imageIO.height].
  set (s1 := if ((nchannels =? 1)%Z && _) then _ else src).
  assert (H1 : oiio.initialized s1 = true
               /\ oiio.width (oiio.spec s1) = oiio.width (oiio.spec src)
               /\ oiio.height (oiio.spec s1) = oiio.height (oiio.spec src)).
  { subst s1. destruct (_ && _); [|now rewrite Hinit].
    unfold oiio.copy, oiio.channel_sum; cbn. repeat split. }
  destruct H1 as (Hi1 & Hw1 & Hh1). clearbody s1.
  destruct (nchannels >? _)%Z; [|now rewrite Hw1, Hh1].
  rewrite copy_spec.
  - destruct (_ && _); rewrite ?paste_spec; cbn; now rewrite Hw1, Hh1.
  - destruct (_ && _); rewrite ?paste_initialized; reflexivity.
Qed.

(** When the source has exactly the one requested channel, or at least the
    three or more requested ones, [readImage] converts nothing: it exports
    the source buffer itself. *)
Lemma readImage_without_conversion
  (T : imageIO.ElemType) (path : string) (typeDesc : oiio.TypeDesc)
  (k : Z) (st : imageIO.Refs sample) :
  imageIO.source_opens path ->
  (k = 1%Z /\ imageIO.source_nchannels path = 1%Z)
  \/ (3 <= k <= imageIO.source_nchannels path)%Z ->
  let src := oiio.open_file path imageIO.configSpec in
  imageIO.readImage T path typeDesc k st
  = (imageIO.Returned tt,
     imageIO.mkRefs (oiio.width (oiio.spec src)) (oiio.height (oiio.spec src))
       (imageIO.store
          (oiio.get_pixels src
             (oiio.set_chend k (oiio.set_chbegin 0 (oiio.roi src))) typeDesc)
          (imageIO.vector_resize T
             (oiio.width (oiio.spec src) * oiio.height (oiio.spec src) * k)
             (imageIO.buffer st)))).
Proof.
  unfold imageIO.source_opens, imageIO.source_nchannels. intros Hinit Hk.
  unfold imageIO.readImage. cbv zeta.
  set (src := oiio.open_file path imageIO.configSpec) in *.
  set (n := oiio.nchannels (oiio.spec src)) in *.
  rewrite Hinit. change (negb true) with false. cbv iota.
  replace ((k =? 1) || (k >=? 3))%Z with true
    by (symmetry; apply orb_true_iff; rewrite Z.eqb_eq, Z.geb_leb, Z.leb_le; lia).
  replace (negb (n =? 1)%Z && (n <? 3)%Z) with false
    by (symmetry; apply andb_false_iff; rewrite negb_false_iff, Z.eqb_eq, Z.ltb_ge; lia).
  replace ((k =? 1)%Z && (n >=? 3)%Z) with false
    by (symmetry; apply andb_false_iff; rewrite Z.eqb_neq, Z.geb_leb, Z.leb_gt; lia).
  cbv iota. fold n.
  replace (k >? n)%Z with false by (symmetry; rewrite Z.gtb_ltb; apply Z.ltb_ge; lia).
  cbv iota. reflexivity.
Qed.

(** X4.  With one channel requested from a one-channel source, or [k >= 3]
    channels requested from a source of at least [k], [readImage] returns
    and leaves at every pixel the source's channels [0 .. k-1], in the
    requested element format; the source's further channels (an alpha
    channel, say) are dropped. *)
Theorem readImage_keeps_leading_channels
  (T : imageIO.ElemType) (path : string) (typeDesc : oiio.TypeDesc)
  (k : Z) (st : imageIO.Refs sample) :
  imageIO.source_opens path ->
  (k = 1%Z /\ imageIO.source_nchannels path = 1%Z)
  \/ (3 <= k <= imageIO.source_nchannels path)%Z ->
  let src := oiio.open_file path imageIO.configSpec in
  imageIO.count_ok (oiio.width (oiio.spec src)) (oiio.height (oiio.spec src)) k ->
  let r := imageIO.readImage T path typeDesc k st in
  fst r = imageIO.Returned tt
  /\ forall x y c : Z,
      (0 <= x < oiio.width (oiio.spec src))%Z ->
      (0 <= y < oiio.height (oiio.spec src))%Z ->
      (0 <= c < k)%Z ->
      nth (Z.to_nat ((y * oiio.width (oiio.spec src) + x) * k + c))
          (imageIO.buffer (snd r)) oiio.zero
      = oiio.convert (oiio.format (oiio.spec src)) typeDesc (oiio.pixel src x y c).
Proof.
  intros Hopen Hk src _ r. subst r.
  rewrite (readImage_without_conversion T path typeDesc k st Hopen Hk).
  fold src. split; [reflexivity|].
  intros x y c Hx Hy Hc. cbn [snd imageIO.buffer].
  unfold imageIO.source_opens, imageIO.source_nchannels in *. fold src in Hopen, Hk.
  set (W := oiio.width (oiio.spec src)) in *.
  set (Ht := oiio.height (oiio.spec src)) in *.
  rewrite (get_pixels_channels _ k) by lia. fold W Ht.
  pose proof (components_pos T) as Hcomp.
  rewrite store_fits
    by (rewrite length_serialise, length_vector_resize, to_nat_mul3 by lia; nia).
  rewrite app_nth1
    by (rewrite length_serialise, <- to_nat_mul3 by lia; apply index_bound; lia).
  rewrite nth_serialise by lia.
  now rewrite getchannel_in by (assumption || lia).
Qed.

(** The buffer [writeImage] hands to [write], pixel by pixel. *)
Lemma writeImage_written_pixels
  (T : imageIO.ElemType) (path : string) (typeDesc : oiio.TypeDesc)
  (width height nchannels : Z) (buffer : list sample)
  (calls : list (imageIO.WriteCall sample)) :
  exists (outBuf : oiio.ImageBuf sample) (ok : bool),
    snd (imageIO.writeImage T path typeDesc width height nchannels buffer calls)
    = imageIO.mkWriteCall outBuf path ok :: calls
    /\ oiio.format (oiio.spec outBuf)
       = (if imageIO.isEXR path then oiio.HALF else typeDesc)
    /\ forall x y c : Z,
        (0 <= x < width)%Z -> (0 <= y < height)%Z -> (0 <= c < nchannels)%Z ->
        oiio.getchannel outBuf x y c
        = oiio.convert typeDesc (oiio.format (oiio.spec outBuf))
            (nth (Z.to_nat ((y * width + x) * nchannels + c)) buffer oiio.zero).
Proof.
  unfold imageIO.writeImage.
  destruct (imageIO.isEXR path);
    unfold mbind, imageIO.M_bind, imageIO.ImageBuf_write; simpl;
    match goal with
    | |- context [oiio.write_file ?b path] => exists b, (oiio.write_file b path)
    end;
    (split; [destruct (oiio.write_file _ path); reflexivity|]);
    (split; [reflexivity|]);
    intros x y c Hx Hy Hc.
  - rewrite getchannel_in by (simpl; lia || reflexivity). simpl.
    now rewrite getchannel_in by (simpl; lia || reflexivity).
  - rewrite getchannel_in by (simpl; lia || reflexivity). simpl.
    now rewrite convert_same.
Qed.

(** X7.  For a buffer that holds the image, the image [writeImage] hands
    to [write] has at every pixel and channel the component the caller's
    buffer holds there in row-major order: as it is on the non-EXR branch,
    converted to [HALF] on the EXR branch. *)
Theorem writeImage_hands_over_the_callers_pixels
  (T : imageIO.ElemType) (path : string) (typeDesc : oiio.TypeDesc)
  (width height nchannels : Z) (buffer : list sample)
  (calls : list (imageIO.WriteCall sample)) :
  Z.to_nat (width * height * nchannels) <= length buffer ->
  exists (outBuf : oiio.ImageBuf sample) (ok : bool),
    snd (imageIO.writeImage T path typeDesc width height nchannels buffer calls)
    = imageIO.mkWriteCall outBuf path ok :: calls
    /\ forall x y c : Z,
        (0 <= x < width)%Z -> (0 <= y < height)%Z -> (0 <= c < nchannels)%Z ->
        oiio.getchannel outBuf x y c
        = let v := nth (Z.to_nat ((y * width + x) * nchannels + c)) buffer oiio.zero in
          if imageIO.isEXR path then oiio.convert typeDesc oiio.HALF v else v.
Proof.
  intros _.
  destruct (writeImage_written_pixels T path typeDesc width height nchannels buffer calls)
    as (outBuf & ok & Hcall & Hfmt & Hpix).
  exists outBuf, ok. split; [exact Hcall|].
  intros x y c Hx Hy Hc. rewrite (Hpix x y c Hx Hy Hc), Hfmt. cbv zeta.
  destruct (imageIO.isEXR path); [reflexivity | apply convert_same].
Qed.

(** X8.  [readImage] followed by [writeImage] with the reported width and
    height and the buffer as [readImage] left it (where [readImage]
    converts no channels): the image handed to [write] has at every pixel
    the source's leading channels, converted to the requested element
    format and then to the format written.  The elements [readImage]
    allocates beyond the image do not show. *)
Theorem readImage_then_writeImage_writes_the_source_channels
  (T : imageIO.ElemType) (path target : string) (typeDesc : oiio.TypeDesc)
  (k : Z) (st : imageIO.Refs sample) (calls : list (imageIO.WriteCall sample)) :
  imageIO.source_opens path ->
  (k = 1%Z /\ imageIO.source_nchannels path = 1%Z)
  \/ (3 <= k <= imageIO.source_nchannels path)%Z ->
  let src := oiio.open_file path imageIO.configSpec in
  imageIO.count_ok (oiio.width (oiio.spec src)) (oiio.height (oiio.spec src)) k ->
  let r := snd (imageIO.readImage T path typeDesc k st) in
  exists (outBuf : oiio.ImageBuf sample) (ok : bool),
    snd (imageIO.writeImage T target typeDesc (imageIO.width r) (imageIO.height r) k
                            (imageIO.buffer r) calls)
    = imageIO.mkWriteCall outBuf target ok :: calls
    /\ forall x y c : Z,
        (0 <= x < oiio.width (oiio.spec src))%Z ->
        (0 <= y < oiio.height (oiio.spec src))%Z ->
        (0 <= c < k)%Z ->
        oiio.getchannel outBuf x y c
        = oiio.convert typeDesc (oiio.format (oiio.spec outBuf))
            (oiio.convert (oiio.format (oiio.spec src)) typeDesc (oiio.pixel src x y c)).
Proof.
  intros Hopen Hk src _ r. subst r.
  rewrite (readImage_without_conversion T path typeDesc k st Hopen Hk).
  fold src. cbn [snd imageIO.width imageIO.height imageIO.buffer].
  set (W := oiio.width (oiio.spec src)) in *.
  set (Ht := oiio.height (oiio.spec src)) in *.
  set (buf := imageIO.store _ _).
  destruct (writeImage_written_pixels T target typeDesc W Ht k buf calls)
    as (outBuf & ok & Hcall & _ & Hpix).
  exists outBuf, ok. split; [exact Hcall|].
  intros x y c Hx Hy Hc. rewrite (Hpix x y c Hx Hy Hc). f_equal.
  unfold imageIO.source_opens, imageIO.source_nchannels in *. fold src in Hopen, Hk.
  subst buf.
  rewrite (get_pixels_channels _ k) by lia. fold W Ht.
  pose proof (components_pos T) as Hcomp.
  rewrite store_fits
    by (rewrite length_serialise, length_vector_resize, to_nat_mul3 by lia; nia).
  rewrite app_nth1
    by (rewrite length_serialise, <- to_nat_mul3 by lia; apply index_bound; lia).
  rewrite nth_serialise by lia.
  now rewrite getchannel_in by (assumption || lia).
Qed.

End ReadWriteMore.

(** Mapping over the layout, and what the layout contains. *)
Lemma map_flat_map_blocks {A B C : Type} (g : B -> C) (f : A -> list B) (l : list A) :
  map g (flat_map f l) = flat_map (fun a => map g (f a)) l.
Proof.
  induction l as [|a l IH]; simpl; [reflexivity|].
  now rewrite map_app, IH.
Qed.

Lemma map_serialise {A B : Type} (g : A -> B) (W H K : Z) (f : Z -> Z -> Z -> A) :
  map g (oiio.serialise W H K f) = oiio.serialise W H K (fun x y c => g (f x y c)).
Proof.
  unfold oiio.serialise.
  rewrite map_flat_map_blocks. apply flat_map_ext_on. intros y _.
  rewrite map_flat_map_blocks. apply flat_map_ext_on. intros x _.
  apply map_map.
Qed.

Lemma in_serialise {A : Type} (W H K : Z) (f : Z -> Z -> Z -> A) (v : A) :
  In v (oiio.serialise W H K f) ->
  exists x y c : Z,
    (0 <= x < W)%Z /\ (0 <= y < H)%Z /\ (0 <= c < K)%Z /\ v = f x y c.
Proof.
  unfold oiio.serialise. intros Hin.
  apply in_flat_map in Hin. destruct Hin as (y & Hy & Hin).
  apply in_flat_map in Hin. destruct Hin as (x & Hx & Hin).
  apply in_map_iff in Hin. destruct Hin as (c & <- & Hc).
  apply in_zrange in Hy, Hx, Hc. now exists x, y, c.
Qed.

(** The positions of the components of a [W] x [H] image, in layout order,
    are [0, 1, ..., W*H*N - 1]. *)
Lemma serialise_positions (W H N : Z) :
  (0 <= W)%Z -> (0 <= H)%Z -> (0 <= N)%Z ->
  oiio.serialise W H N (fun x y c => Z.to_nat ((y * W + x) * N + c))
  = seq 0 (Z.to_nat (W * H * N)).
Proof.
  intros HW HH HN.
  apply (nth_ext _ _ 0 0).
  - rewrite length_serialise, length_seq, to_nat_mul3 by lia. reflexivity.
  - intros i Hi. rewrite length_serialise, <- to_nat_mul3 in Hi by lia.
    rewrite seq_nth by exact Hi.
    destruct (index_decompose W H N i HW HH HN Hi) as (x & y & c & Hx & Hy & Hc & ->).
    now rewrite nth_serialise.
Qed.

(** A position determines its pixel and channel. *)
Lemma position_unique (w n x1 y1 c1 x2 y2 c2 : Z) :
  (0 <= y1 < w)%Z -> (0 <= y2 < w)%Z -> (0 <= c1 < n)%Z -> (0 <= c2 < n)%Z ->
  ((x1 * w + y1) * n + c1 = (x2 * w + y2) * n + c2)%Z ->
  x1 = x2 /\ y1 = y2 /\ c1 = c2.
Proof.
  intros Hy1 Hy2 Hc1 Hc2 Heq.
  assert (Hp : (x1 * w + y1 = x2 * w + y2)%Z) by nia.
  assert (Hx : x1 = x2) by nia.
  subst x2. split; [reflexivity|]. split; nia.
Qed.

(** The positions [transposeImage] reads, in the order it writes them, are
    a permutation of the positions of the image. *)
Lemma transposed_positions_permute (w h n : Z) :
  (0 <= w)%Z -> (0 <= h)%Z -> (0 <= n)%Z ->
  Permutation
    (oiio.serialise h w n (fun x y c => Z.to_nat ((x * w + y) * n + c)))
    (seq 0 (Z.to_nat (w * h * n))).
Proof.
  intros Hw Hh Hn.
  apply NoDup_Permutation_bis.
  - apply (NoDup_nth _ 0). intros i j Hi Hj Hij.
    rewrite length_serialise, <- to_nat_mul3 in Hi, Hj by lia.
    destruct (index_decompose h w n i Hh Hw Hn Hi)
      as (x1 & y1 & c1 & Hx1 & Hy1 & Hc1 & ->).
    destruct (index_decompose h w n j Hh Hw Hn Hj)
      as (x2 & y2 & c2 & Hx2 & Hy2 & Hc2 & ->).
    rewrite !nth_serialise in Hij by assumption.
    assert (Hz : ((x1 * w + y1) * n + c1 = (x2 * w + y2) * n + c2)%Z) by nia.
    destruct (position_unique w n x1 y1 c1 x2 y2 c2 Hy1 Hy2 Hc1 Hc2 Hz)
      as (-> & -> & ->).
    reflexivity.
  - rewrite length_serialise, length_seq, to_nat_mul3 by lia. lia.
  - intros v Hv. apply in_serialise in Hv.
    destruct Hv as (x & y & c & Hx & Hy & Hc & ->).
    apply in_seq. split; [lia|]. simpl.
    apply (index_bound w h n y x c); assumption.
Qed.

Section TransposeMore.
Context {sample : Type} {smp : oiio.Samples sample}.

(** X11.  [transposeImage] loses and duplicates nothing: the buffer after
    the call is a permutation of the buffer before it. *)
Theorem transposeImage_permutes_buffer
  (T : imageIO.ElemType) (typeDesc : oiio.TypeDesc) (width height nchannels : Z)
  (buffer : list sample) :
  (0 <= width)%Z -> (0 <= height)%Z -> (0 <= nchannels)%Z ->
  Z.to_nat (width * height * nchannels) <= length buffer ->
  Permutation (imageIO.transposeImage T typeDesc width height nchannels buffer) buffer.
Proof.
  intros Hw Hh Hn Hlen.
  rewrite transposeImage_eq by assumption.
  apply (Permutation_trans
           (l' := firstn (Z.to_nat (width * height * nchannels)) buffer
                  ++ skipn (Z.to_nat (width * height * nchannels)) buffer));
    [|now rewrite firstn_skipn].
  apply Permutation_app_tail.
  rewrite <- serialise_wrap by assumption.
  set (g := fun i : nat => nth i buffer oiio.zero).
  change (Permutation
            (oiio.serialise height width nchannels
               (fun x y c => g (Z.to_nat ((x * width + y) * nchannels + c))))
            (oiio.serialise width height nchannels
               (fun x y c => g (Z.to_nat ((y * width + x) * nchannels + c))))).
  rewrite <- !(map_serialise g).
  apply Permutation_map.
  rewrite serialise_positions by assumption.
  now apply transposed_positions_permute.
Qed.

(** X9.  After [transposeImage] the buffer has its length of before; the
    component of the pixel at column [x], row [y] is at column [y], row [x]
    of an image that is [height] wide; and what the buffer holds beyond the
    image is untouched. *)
Theorem transposeImage_moves_each_component
  (T : imageIO.ElemType) (typeDesc : oiio.TypeDesc) (width height nchannels : Z)
  (buffer : list sample) :
  (0 <= width)%Z -> (0 <= height)%Z -> (0 <= nchannels)%Z ->
  Z.to_nat (width * height * nchannels) <= length buffer ->
  let out := imageIO.transposeImage T typeDesc width height nchannels buffer in
  length out = length buffer
  /\ (forall x y c : Z,
         (0 <= x < width)%Z -> (0 <= y < height)%Z -> (0 <= c < nchannels)%Z ->
         nth (Z.to_nat ((x * height + y) * nchannels + c)) out oiio.zero
         = nth (Z.to_nat ((y * width + x) * nchannels + c)) buffer oiio.zero)
  /\ (forall i : nat,
         Z.to_nat (width * height * nchannels) <= i ->
         nth i out oiio.zero = nth i buffer oiio.zero).
Proof.
  intros Hw Hh Hn Hlen out. subst out.
  split; [apply length_transposeImage|].
  rewrite transposeImage_eq by assumption.
  assert (Hser : length (oiio.serialise height width nchannels
                   (fun x y c => nth (Z.to_nat ((x * width + y) * nchannels + c))
                                     buffer oiio.zero))
                 = Z.to_nat (width * height * nchannels)).
  { rewrite length_serialise, <- to_nat_mul3 by lia. f_equal. lia. }
  split.
  - intros x y c Hx Hy Hc.
    rewrite app_nth1.
    + now rewrite nth_serialise by lia.
    + rewrite Hser. replace (width * height * nchannels)%Z
        with (height * width * nchannels)%Z by lia.
      apply index_bound; lia.
  - intros i Hi.
    rewrite app_nth2 by (rewrite Hser; exact Hi).
    rewrite Hser, nth_skipn. f_equal. lia.
Qed.

End TransposeMore.

Section ResizeMore.
Context {sample cfloat : Type}.
Context {smp : oiio.Samples sample} {alg : oiio.Algorithms sample cfloat}
        {fls : oiio.Files sample}.

(** Writing as many components as the vector holds replaces it. *)
Lemma store_exact (vals v : list sample) :
  length vals = length v -> imageIO.store vals v = vals.
Proof.
  intros Hl. rewrite store_fits by lia.
  rewrite skipn_all2 by lia. apply app_nil_r.
Qed.

(** [outBuffer] after [resizeImage], when the element type holds the
    channels of a pixel: the rows of the resampled image. *)
Lemma resizeImage_rows (T : imageIO.ElemType) (typeDesc : oiio.TypeDesc)
  (inWidth inHeight nchannels downscale : Z) (inBuffer outBuffer : list sample)
  (filter : string) (filterSize : cfloat) :
  (0 <= imageIO.outWidth inWidth downscale)%Z ->
  (0 <= imageIO.outHeight inHeight downscale)%Z ->
  Z.of_nat (imageIO.components T) = nchannels ->
  imageIO.resizeImage T typeDesc inWidth inHeight nchannels downscale
                      inBuffer outBuffer filter filterSize
  = oiio.serialise (imageIO.outWidth inWidth downscale)
      (imageIO.outHeight inHeight downscale) nchannels
      (oiio.resize_sample
         (oiio.ImageSpec_new (imageIO.outWidth inWidth downscale)
            (imageIO.outHeight inHeight downscale) nchannels typeDesc)
         (oiio.ImageBuf_wrap
            (oiio.ImageSpec_new inWidth inHeight nchannels typeDesc) inBuffer)
         filter filterSize).
Proof.
  intros Hw Hh Hn. unfold imageIO.resizeImage; cbv zeta.
  set (ow := imageIO.outWidth inWidth downscale) in *.
  set (oh := imageIO.outHeight inHeight downscale) in *.
  rewrite get_pixels_All. unfold oiio.resize; simpl.
  rewrite store_exact.
  - apply serialise_ext. intros x y c Hx Hy Hc.
    rewrite convert_same.
    now rewrite getchannel_in by (simpl; lia || reflexivity).
  - rewrite length_serialise, length_vector_resize. nia.
Qed.

(** X12.  For the public overloads (the element type holds the channels of
    a pixel) and a positive [downscale], what [outBuffer] held and how long
    it was before the call does not show in the result of [resizeImage],
    which has [outWidth * outHeight * nchannels] components. *)
Theorem resizeImage_ignores_old_output
  (T : imageIO.ElemType) (typeDesc : oiio.TypeDesc)
  (inWidth inHeight nchannels downscale : Z) (inBuffer : list sample)
  (outBuffer outBuffer' : list sample) (filter : string) (filterSize : cfloat) :
  (0 <= inWidth)%Z -> (0 <= inHeight)%Z -> (0 < downscale)%Z ->
  Z.of_nat (imageIO.components T) = nchannels ->
  std.is_count (imageIO.outWidth inWidth downscale
                * imageIO.outHeight inHeight downscale) ->
  imageIO.resizeImage T typeDesc inWidth inHeight nchannels downscale
                      inBuffer outBuffer filter filterSize
  = imageIO.resizeImage T typeDesc inWidth inHeight nchannels downscale
                        inBuffer outBuffer' filter filterSize
  /\ length (imageIO.resizeImage T typeDesc inWidth inHeight nchannels downscale
                                 inBuffer outBuffer filter filterSize)
     = Z.to_nat (imageIO.outWidth inWidth downscale
                 * imageIO.outHeight inHeight downscale * nchannels).
Proof.
  intros Hw Hh Hd Hn _.
  assert (Hw' : (0 <= imageIO.outWidth inWidth downscale)%Z)
    by (unfold imageIO.outWidth; apply Z.quot_pos; lia).
  assert (Hh' : (0 <= imageIO.outHeight inHeight downscale)%Z)
    by (unfold imageIO.outHeight; apply Z.quot_pos; lia).
  rewrite !(resizeImage_rows T typeDesc inWidth inHeight nchannels downscale inBuffer)
    by assumption.
  split; [reflexivity|].
  rewrite length_serialise, to_nat_mul3 by lia. lia.
Qed.

(** X13.  When [downscale] exceeds the input's width or its height,
    [resizeImage] leaves [outBuffer] empty. *)
Theorem resizeImage_downscale_beyond_a_dimension_gives_empty_buffer
  (T : imageIO.ElemType) (typeDesc : oiio.TypeDesc)
  (inWidth inHeight nchannels downscale : Z) (inBuffer outBuffer : list sample)
  (filter : string) (filterSize : cfloat) :
  (0 <= inWidth < downscale)%Z \/ (0 <= inHeight < downscale)%Z ->
  imageIO.resizeImage T typeDesc inWidth inHeight nchannels downscale
                      inBuffer outBuffer filter filterSize = [].
Proof.
  intros Hsmall. unfold imageIO.resizeImage; cbv zeta.
  assert (Hzero : (imageIO.outWidth inWidth downscale
                   * imageIO.outHeight inHeight downscale = 0)%Z).
  { unfold imageIO.outWidth, imageIO.outHeight.
    destruct Hsmall as [Hs|Hs]; rewrite (Z.quot_small _ _ Hs); lia. }
  rewrite Hzero.
  unfold imageIO.vector_resize, imageIO.store; simpl.
  now rewrite skipn_nil.
Qed.

(** X14.  For an input buffer that holds exactly the image (and an element
    type that holds the channels of a pixel), [outBuffer] after
    [convolveImage] is the rows of the convolved image of the input's
    dimensions; what [outBuffer] held before does not show. *)
Theorem convolveImage_fills_a_fresh_buffer_of_the_input_size
  (T : imageIO.ElemType) (typeDesc : oiio.TypeDesc)
  (inWidth inHeight nchannels : Z) (inBuffer outBuffer : list sample)
  (kernel : string) (kernelWidth kernelHeight : cfloat) :
  (0 <= inWidth)%Z -> (0 <= inHeight)%Z ->
  Z.of_nat (imageIO.components T) = nchannels ->
  length inBuffer = Z.to_nat (inWidth * inHeight * nchannels) ->
  imageIO.convolveImage T typeDesc inWidth inHeight nchannels inBuffer outBuffer
                        kernel kernelWidth kernelHeight
  = oiio.serialise inWidth inHeight nchannels
      (oiio.convolve_sample
         (oiio.ImageSpec_new inWidth inHeight nchannels typeDesc)
         (oiio.ImageBuf_wrap
            (oiio.ImageSpec_new inWidth inHeight nchannels typeDesc) inBuffer)
         (oiio.make_kernel kernel kernelWidth kernelHeight)).
Proof.
  intros Hw Hh Hn Hlen. unfold imageIO.convolveImage; cbv zeta.
  rewrite get_pixels_All. unfold oiio.convolve; simpl.
  rewrite store_exact.
  - apply serialise_ext. intros x y c Hx Hy Hc.
    rewrite convert_same.
    now rewrite getchannel_in by (simpl; lia || reflexivity).
  - rewrite length_serialise, length_vector_resize, Nat2Z.id.
    unfold imageIO.vector_size. rewrite Hlen.
    pose proof (components_pos T) as Hc.
    rewrite to_nat_mul3 by lia.
    replace (Z.to_nat nchannels) with (imageIO.components T) by lia.
    replace (Z.to_nat inHeight * (Z.to_nat inWidth * imageIO.components T))
      with (Z.to_nat inHeight * Z.to_nat inWidth * imageIO.components T) by lia.
    rewrite Nat.div_mul by lia. reflexivity.
Qed.

(** X6.  After a public overload of [readImage] returns, the buffer has
    [width * height * components T] elements of type [T], that is
    [width * height * components T * components T] components: three
    elements, nine components, per pixel for [rgb] and [Color]. *)
Theorem readImage_overload_buffer_element_count
  (T : imageIO.ElemType) (path : string) (st : imageIO.Refs sample) :
  let r := imageIO.readImage_overload T path st in
  fst r = imageIO.Returned tt ->
  imageIO.count_ok (imageIO.width (snd r)) (imageIO.height (snd r))
                   (Z.of_nat (imageIO.components T)) ->
  imageIO.vector_size T (imageIO.buffer (snd r))
  = Z.to_nat (imageIO.width (snd r) * imageIO.height (snd r)) * imageIO.components T
  /\ length (imageIO.buffer (snd r))
     = Z.to_nat (imageIO.width (snd r) * imageIO.height (snd r))
       * imageIO.components T * imageIO.components T.
Proof.
  intros r Hr [Hwh _].
  assert (Hsize : imageIO.vector_size T (imageIO.buffer (snd r))
                  = Z.to_nat (imageIO.width (snd r) * imageIO.height (snd r)
                              * Z.of_nat (imageIO.components T))).
  { subst r. destruct T; apply readImage_buffer_size; exact Hr. }
  unfold std.is_count in Hwh.
  assert (Hmul : Z.to_nat (imageIO.width (snd r) * imageIO.height (snd r)
                           * Z.of_nat (imageIO.components T))
                 = Z.to_nat (imageIO.width (snd r) * imageIO.height (snd r))
                   * imageIO.components T) by nia.
  split; [now rewrite Hsize, Hmul|].
  rewrite <- Hmul.
  assert (Hexp : exists typeDesc k,
             imageIO.readImage_overload T path st = imageIO.readImage T path typeDesc k st
             /\ k = Z.of_nat (imageIO.components T)).
  { destruct T; eexists _, _; split; reflexivity. }
  destruct Hexp as (typeDesc & k & Heq & ->).
  subst r. rewrite Heq in *.
  destruct (readImage_returned T path typeDesc _ st Hr) as [inBuf Hst].
  rewrite Hst. cbn [imageIO.buffer imageIO.width imageIO.height].
  now rewrite length_store, length_vector_resize.
Qed.

End ResizeMore.

(** ** The further properties on the concrete library and files *)

Lemma readImage_overload_outcome_witness :
  @imageIO.source_opens Z Concrete.files "gray.png"
  /\ (@imageIO.source_nchannels Z Concrete.files "gray.png" = 1%Z
      \/ (@imageIO.source_nchannels Z Concrete.files "gray.png" >= 3)%Z).
Proof.
  exact (proj2 (proj2 (@readImage_overload_outcome_classification Z Concrete.samples
                         Concrete.files imageIO.T_uchar "gray.png" Concrete.refs0))
               eq_refl).
Defined.

Lemma readImage_reports_source_dimensions_witness :
  imageIO.width (snd (imageIO.readImage imageIO.T_rgb "gray.png" oiio.UCHAR 3
                                        Concrete.refs0)) = 2%Z
  /\ imageIO.height (snd (imageIO.readImage imageIO.T_rgb "gray.png" oiio.UCHAR 3
                                            Concrete.refs0)) = 1%Z.
Proof.
  exact (readImage_reports_source_dimensions
           imageIO.T_rgb "gray.png" oiio.UCHAR 3 Concrete.refs0 eq_refl).
Defined.

Lemma readImage_keeps_leading_channels_witness :
  nth 1 (imageIO.buffer (snd (imageIO.readImage imageIO.T_rgb "rgb.png" oiio.UCHAR 3
                                                Concrete.refs0))) 0%Z
  = 5%Z.
Proof.
  assert (Hk : (3 = 1 /\ imageIO.source_nchannels "rgb.png" = 1)%Z
               \/ (3 <= 3 <= imageIO.source_nchannels "rgb.png")%Z)
    by (right; split; apply Z.leb_le; reflexivity).
  assert (Hcount : imageIO.count_ok 1 1 3)
    by (unfold imageIO.count_ok, std.is_count; repeat split; apply Z.leb_le; reflexivity).
  exact (proj2 (readImage_keeps_leading_channels
                  imageIO.T_rgb "rgb.png" oiio.UCHAR 3 Concrete.refs0
                  eq_refl Hk Hcount)
               0%Z 0%Z 1%Z ltac:(simpl; lia) ltac:(simpl; lia) ltac:(lia)).
Defined.

Lemma readImage_rgb_source_gray_request_witness :
  nth 0 (imageIO.buffer (snd (imageIO.readImage imageIO.T_uchar "rgb.png" oiio.UCHAR 1
                                                Concrete.refs0))) 0%Z
  = 5%Z.
Proof.
  assert (Hn : (imageIO.source_nchannels "rgb.png" >= 3)%Z)
    by (vm_compute; discriminate).
  assert (Hcount : imageIO.count_ok 1 1 1)
    by (unfold imageIO.count_ok, std.is_count; repeat split; apply Z.leb_le; reflexivity).
  pose proof (readImage_rgb_source_gray_request_sums
                imageIO.T_uchar "rgb.png" oiio.UCHAR Concrete.refs0
                eq_refl Hn Hcount) as Hsum.
  cbv zeta in Hsum. destruct Hsum as (_ & _ & _ & Hpix).
  exact (Hpix 0%Z 0%Z ltac:(simpl; lia) ltac:(simpl; lia)).
Defined.

Lemma readImage_overload_buffer_element_count_witness :
  imageIO.vector_size imageIO.T_rgb
    (imageIO.buffer (snd (imageIO.readImage_overload imageIO.T_rgb "rgb.png"
                                                     Concrete.refs0))) = 3
  /\ length (imageIO.buffer (snd (imageIO.readImage_overload imageIO.T_rgb "rgb.png"
                                                             Concrete.refs0))) = 9.
Proof.
  assert (Hcount : imageIO.count_ok 1 1 3)
    by (unfold imageIO.count_ok, std.is_count; repeat split; apply Z.leb_le; reflexivity).
  exact (readImage_overload_buffer_element_count
           imageIO.T_rgb "rgb.png" Concrete.refs0 eq_refl Hcount).
Defined.

Lemma writeImage_hands_over_the_callers_pixels_witness :
  exists (outBuf : oiio.ImageBuf Z) (ok : bool),
    snd (imageIO.writeImage imageIO.T_uchar "out.exr" oiio.UCHAR 2 1 1 [10; 20]%Z [])
    = [imageIO.mkWriteCall outBuf "out.exr" ok]
    /\ oiio.getchannel outBuf 1 0 0 = 20%Z.
Proof.
  assert (Hlen : Z.to_nat (2 * 1 * 1) <= length [10; 20]%Z) by (simpl; lia).
  destruct (writeImage_hands_over_the_callers_pixels
              imageIO.T_uchar "out.exr" oiio.UCHAR 2 1 1 [10; 20]%Z [] Hlen)
    as (outBuf & ok & Hcall & Hpix).
  exists outBuf, ok. split; [exact Hcall|].
  exact (Hpix 1%Z 0%Z 0%Z ltac:(lia) ltac:(lia) ltac:(lia)).
Defined.

Lemma readImage_then_writeImage_witness :
  exists (outBuf : oiio.ImageBuf Z) (ok : bool),
    snd (imageIO.writeImage imageIO.T_rgb "copy.png" oiio.UCHAR 1 1 3
           (imageIO.buffer (snd (imageIO.readImage imageIO.T_rgb "rgb.png" oiio.UCHAR 3
                                                   Concrete.refs0))) [])
    = [imageIO.mkWriteCall outBuf "copy.png" ok]
    /\ oiio.getchannel outBuf 0 0 2 = 5%Z.
Proof.
  assert (Hk : (3 = 1 /\ imageIO.source_nchannels "rgb.png" = 1)%Z
               \/ (3 <= 3 <= imageIO.source_nchannels "rgb.png")%Z)
    by (right; split; apply Z.leb_le; reflexivity).
  assert (Hcount : imageIO.count_ok 1 1 3)
    by (unfold imageIO.count_ok, std.is_count; repeat split; apply Z.leb_le; reflexivity).
  assert (Hopen : imageIO.source_opens "rgb.png") by reflexivity.
  destruct (readImage_then_writeImage_writes_the_source_channels
              imageIO.T_rgb "rgb.png" "copy.png" oiio.UCHAR 3 Concrete.refs0 []
              Hopen Hk Hcount)
    as (outBuf & ok & Hcall & Hpix).
  exists outBuf, ok. split; [exact Hcall|].
  pose proof (Hpix 0%Z 0%Z 2%Z ltac:(simpl; lia) ltac:(simpl; lia) ltac:(lia)) as Hp.
  rewrite Hp.
  assert (Hfmt : oiio.format (oiio.spec outBuf) = oiio.UCHAR).
  { change (imageIO.width _) with 1%Z in Hcall.
    change (imageIO.height _) with 1%Z in Hcall.
    unfold imageIO.writeImage in Hcall. simpl in Hcall.
    injection Hcall as <- _. reflexivity. }
  rewrite Hfmt. reflexivity.
Defined.

Lemma transposeImage_moves_each_component_witness :
  nth 1 (imageIO.transposeImage imageIO.T_uchar oiio.UCHAR 3 2 1
           [1; 2; 3; 4; 5; 6]%Z) 0%Z
  = 4%Z.
Proof.
  assert (Hlen : Z.to_nat (3 * 2 * 1) <= length [1; 2; 3; 4; 5; 6]%Z) by (simpl; lia).
  pose proof (transposeImage_moves_each_component
                imageIO.T_uchar oiio.UCHAR 3 2 1 [1; 2; 3; 4; 5; 6]%Z
                ltac:(lia) ltac:(lia) ltac:(lia) Hlen) as Hmove.
  cbv zeta in Hmove. destruct Hmove as (_ & Hpix & _).
  exact (Hpix 0%Z 1%Z 0%Z ltac:(lia) ltac:(lia) ltac:(lia)).
Defined.

Lemma transposeImage_permutes_buffer_witness :
  Permutation
    (imageIO.transposeImage imageIO.T_uchar oiio.UCHAR 3 2 1 [1; 2; 3; 4; 5; 6]%Z)
    [1; 2; 3; 4; 5; 6]%Z.
Proof.
  assert (Hlen : Z.to_nat (3 * 2 * 1) <= length [1; 2; 3; 4; 5; 6]%Z) by (simpl; lia).
  exact (transposeImage_permutes_buffer
           imageIO.T_uchar oiio.UCHAR 3 2 1 [1; 2; 3; 4; 5; 6]%Z
           ltac:(lia) ltac:(lia) ltac:(lia) Hlen).
Defined.

Lemma resizeImage_ignores_old_output_witness :
  imageIO.resizeImage imageIO.T_uchar oiio.UCHAR 2 1 1 1 [10; 20]%Z [7; 7; 7]%Z "" 0%Q
  = imageIO.resizeImage imageIO.T_uchar oiio.UCHAR 2 1 1 1 [10; 20]%Z [] "" 0%Q.
Proof.
  assert (Hcount : std.is_count (imageIO.outWidth 2 1 * imageIO.outHeight 1 1))
    by (unfold std.is_count; split; apply Z.leb_le; reflexivity).
  exact (proj1 (resizeImage_ignores_old_output
                  imageIO.T_uchar oiio.UCHAR 2 1 1 1 [10; 20]%Z [7; 7; 7]%Z [] "" 0%Q
                  ltac:(lia) ltac:(lia) ltac:(lia) eq_refl Hcount)).
Defined.

Lemma resizeImage_downscale_beyond_a_dimension_witness :
  imageIO.resizeImage imageIO.T_uchar oiio.UCHAR 2 1 1 3 [10; 20]%Z [7]%Z "" 0%Q = [].
Proof.
  assert (Hsmall : (0 <= 2 < 3)%Z \/ (0 <= 1 < 3)%Z) by (left; lia).
  exact (resizeImage_downscale_beyond_a_dimension_gives_empty_buffer
           imageIO.T_uchar oiio.UCHAR 2 1 1 3 [10; 20]%Z [7]%Z "" 0%Q Hsmall).
Defined.

Lemma convolveImage_fills_a_fresh_buffer_witness :
  imageIO.convolveImage imageIO.T_uchar oiio.UCHAR 2 1 1 [10; 20]%Z [9; 9; 9]%Z
                        "box" 1%Q 1%Q
  = [10; 20]%Z.
Proof.
  exact (convolveImage_fills_a_fresh_buffer_of_the_input_size
           imageIO.T_uchar oiio.UCHAR 2 1 1 [10; 20]%Z [9; 9; 9]%Z "box" 1%Q 1%Q
           ltac:(lia) ltac:(lia) eq_refl eq_refl).
Defined.
